(** * statuspageio: the envelope HTTP client

    A shallow embedding of [statuspageio/http_client.py] (class
    [HttpClient]) and [statuspageio/errors.py], with the properties of
    the request/response marshalling stated and proved over it.

    Python values are modelled by two inductive types: [json] for plain
    data (what [json.loads] returns and what callers pass as a body) and
    [pyval] for what the client hands back, where a mapping may have
    been turned into a [DotMap].  JSON numbers are the integers; a dict
    is an association list in insertion order, with string keys. *)

From stdpp Require Import base option list strings gmap pretty.
From Stdlib Require Import ZArith Ascii Lia.

#[local] Set Warnings "-register-all".

Open Scope string_scope.
Open Scope Z_scope.

(** ** Python data *)

Inductive json : Type :=
| JNull
| JBool (b : bool)
| JInt (z : Z)
| JStr (s : string)
| JList (l : list json)
| JObj (kvs : list (string * json)).

Inductive pyval : Type :=
| PNone
| PBool (b : bool)
| PInt (z : Z)
| PStr (s : string)
| PList (l : list pyval)
| PDict (kvs : list (string * pyval))
| PDotMap (kvs : list (string * pyval)).

(** Exceptions.  The first five are the classes of [errors.py]; the
    three [BaseError] subclasses carry [http_status] and [errors]
    ([logref] is always the empty string and is left out).  [Exception]
    is the builtin class raised with a message; the others are the
    builtin errors Python's own operations raise here, and
    [RequestException] is whatever the transport raises. *)
Inductive exn : Type :=
| ConfigurationError (msg : string)
| RateLimitError
| RequestError (http_status : Z) (errors : json)
| ResourceError (http_status : Z) (errors : json)
| ServerError (http_status : Z) (errors : json)
| Exception (msg : string)
| TypeError
| KeyError (key : string)
| JSONDecodeError
| DotMapError
| RequestException (what : string).

Inductive result (A : Type) : Type :=
| Ok (a : A)
| Raise (e : exn).
Arguments Ok {A} a.
Arguments Raise {A} e.

Instance result_ret : MRet result := fun A a => Ok a.
Instance result_bind : MBind result := fun A B f m =>
  match m with
  | Ok a => f a
  | Raise e => Raise e
  end.

(** ** Dict and sequence primitives *)

Fixpoint dict_get {A : Type} (kvs : list (string * A)) (k : string) : option A :=
  match kvs with
  | [] => None
  | (k', v) :: tl => if String.eqb k' k then Some v else dict_get tl k
  end.

Definition dict_keys {A : Type} (kvs : list (string * A)) : list string :=
  map fst kvs.

(** [needle in hay] on two strings: substring test. *)
Fixpoint str_contains (needle hay : string) : bool :=
  String.prefix needle hay ||
  match hay with
  | EmptyString => false
  | String _ tl => str_contains needle tl
  end.

Definition json_eqb_str (s : string) (j : json) : bool :=
  match j with
  | JStr t => String.eqb s t
  | _ => false
  end.

(** [k in body]: key test on a dict, membership on a list, substring on
    a string, [TypeError] on anything else. *)
Definition py_in (k : string) (body : json) : result bool :=
  match body with
  | JObj kvs => Ok (bool_decide (is_Some (dict_get kvs k)))
  | JList l => Ok (existsb (json_eqb_str k) l)
  | JStr s => Ok (str_contains k s)
  | _ => Raise TypeError
  end.

(** [body[k]] with a string subscript. *)
Definition py_getitem (body : json) (k : string) : result json :=
  match body with
  | JObj kvs =>
      match dict_get kvs k with
      | Some v => Ok v
      | None => Raise (KeyError k)
      end
  | _ => Raise TypeError
  end.

Fixpoint str_chars (s : string) : list json :=
  match s with
  | EmptyString => []
  | String c tl => JStr (String c EmptyString) :: str_chars tl
  end.

(** [for item in v]: the elements of a list, the keys of a dict, the
    characters of a string. *)
Definition py_iter (v : json) : result (list json) :=
  match v with
  | JList l => Ok l
  | JObj kvs => Ok (map JStr (dict_keys kvs))
  | JStr s => Ok (str_chars s)
  | _ => Raise TypeError
  end.

(** ** DotMap *)

Fixpoint embed (j : json) : pyval :=
  match j with
  | JNull => PNone
  | JBool b => PBool b
  | JInt z => PInt z
  | JStr s => PStr s
  | JList l => PList (map embed l)
  | JObj kvs => PDict (map (fun kv => (fst kv, embed (snd kv))) kvs)
  end.

(** The [dotmap] library's constructor on a dict: every key is copied
    in order; a value
    that is a dict becomes a [DotMap] in turn; in a value that is a list
    the elements that are dicts become [DotMap]s (one level of list
    only); anything else is stored as it is. *)
Fixpoint dotmap_value (v : json) : pyval :=
  match v with
  | JObj kvs => PDotMap (map (fun kv => (fst kv, dotmap_value (snd kv))) kvs)
  | JList l =>
      PList (map (fun i => match i with
                           | JObj _ => dotmap_value i
                           | _ => embed i
                           end) l)
  | _ => embed v
  end.

(** Reading a result back as plain data: a [DotMap] compares equal to
    the dict with the same items. *)
Fixpoint to_json (v : pyval) : json :=
  match v with
  | PNone => JNull
  | PBool b => JBool b
  | PInt z => JInt z
  | PStr s => JStr s
  | PList l => JList (map to_json l)
  | PDict kvs => JObj (map (fun kv => (fst kv, to_json (snd kv))) kvs)
  | PDotMap kvs => JObj (map (fun kv => (fst kv, to_json (snd kv))) kvs)
  end.

Definition is_mapping (v : pyval) : bool :=
  match v with
  | PDotMap _ => true
  | _ => false
  end.

Definition mapping_keys (v : pyval) : list string :=
  match v with
  | PDotMap kvs | PDict kvs => dict_keys kvs
  | _ => []
  end.

Definition json_keys (j : json) : list string :=
  match j with
  | JObj kvs => dict_keys kvs
  | _ => []
  end.

Definition is_obj (j : json) : bool :=
  match j with
  | JObj _ => true
  | _ => false
  end.

(** A list comprehension: the elements are evaluated from left to
    right and the first exception ends it. *)
Fixpoint sequence (rs : list (result pyval)) : result (list pyval) :=
  match rs with
  | [] => Ok []
  | r :: tl => v ← r; vs ← sequence tl; Ok (v :: vs)
  end.

(** ** Strings: [json.dumps], [str.lower], truthiness *)

Definition dquote : string := String (ascii_of_nat 34) EmptyString.
Definition backslash : string := String (ascii_of_nat 92) EmptyString.

Definition hex_digit (n : N) : ascii :=
  if (n <? 10)%N then ascii_of_N (48 + n) else ascii_of_N (87 + n).

Definition hex4 (n : N) : string :=
  String (hex_digit (n / 4096 mod 16))
    (String (hex_digit (n / 256 mod 16))
       (String (hex_digit (n / 16 mod 16))
          (String (hex_digit (n mod 16)) EmptyString))).

(** One character of a string literal written by [json.dumps] with
    [ensure_ascii]: the printable ASCII characters stand for themselves
    but for the quote and the backslash; the rest is escaped. *)
Definition escape_char (c : ascii) : string :=
  let n := N_of_ascii c in
  if (n =? 34)%N then backslash ++ dquote
  else if (n =? 92)%N then backslash ++ backslash
  else if (n =? 10)%N then backslash ++ "n"
  else if (n =? 13)%N then backslash ++ "r"
  else if (n =? 9)%N then backslash ++ "t"
  else if (n =? 8)%N then backslash ++ "b"
  else if (n =? 12)%N then backslash ++ "f"
  else if ((32 <=? n) && (n <=? 126))%N then String c EmptyString
  else backslash ++ "u" ++ hex4 n.

Fixpoint escape (s : string) : string :=
  match s with
  | EmptyString => EmptyString
  | String c tl => escape_char c ++ escape tl
  end.

Definition json_string (s : string) : string := dquote ++ escape s ++ dquote.

(** [json.dumps] with its default separators. *)
Fixpoint json_dumps (j : json) : string :=
  match j with
  | JNull => "null"
  | JBool true => "true"
  | JBool false => "false"
  | JInt z => pretty z
  | JStr s => json_string s
  | JList l => "[" ++ String.concat ", " (map json_dumps l) ++ "]"
  | JObj kvs =>
      "{" ++ String.concat ", "
               (map (fun kv => json_string (fst kv) ++ ": " ++ json_dumps (snd kv)) kvs)
          ++ "}"
  end.

Definition lower_char (c : ascii) : ascii :=
  let n := N_of_ascii c in
  if ((65 <=? n) && (n <=? 90))%N then ascii_of_N (n + 32) else c.

Fixpoint lower (s : string) : string :=
  match s with
  | EmptyString => EmptyString
  | String c tl => String (lower_char c) (lower tl)
  end.

(** [bool(v)] *)
Definition truthy (v : json) : bool :=
  match v with
  | JNull => false
  | JBool b => b
  | JInt z => negb (z =? 0)
  | JStr s => negb (String.eqb s EmptyString)
  | JList l => negb (bool_decide (l = []))
  | JObj kvs => negb (bool_decide (kvs = []))
  end.

(** ** The client's collaborators *)

(** The configuration object; an attribute that was not provided is
    [None].  The timeout is a number of seconds, which [float()] accepts
    and the transport receives. *)
Record Configuration : Type := {
  base_url : option string;
  api_key : option string;
  timeout : Z;
  verify_ssl : bool
}.

(** How an f-string renders an attribute. *)
Definition format_value (o : option string) : string :=
  match o with
  | Some s => s
  | None => "None"
  end.

(** ["OAuth " + x] *)
Definition str_add (s : string) (o : option string) : result string :=
  match o with
  | Some t => Ok (s ++ t)
  | None => Raise TypeError
  end.

(** The keyword arguments [request] reads.  [kwargs['headers']] is a
    dict of header names and values or something that is not a dict;
    [kwargs['raw']] is any value; [kwargs['container']] is a string. *)
Inductive headers_arg : Type :=
| HeadersDict (h : gmap string string)
| HeadersOther.

Record kwargs : Type := {
  kw_headers : option headers_arg;
  kw_raw : option json;
  kw_container : option string
}.

(** The arguments of [requests.request]. *)
Record wire_request : Type := {
  rq_method : string;
  rq_url : string;
  rq_params : json;
  rq_data : option string;
  rq_headers : gmap string string;
  rq_timeout : Z;
  rq_verify : bool
}.

(** The response object: [status_code], [headers] (a case-insensitive
    dict, keyed here by the lower-cased name), [text], [content], and
    the outcome of [json()], [None] when it raises. *)
Record response : Type := {
  status_code : Z;
  resp_headers : gmap string string;
  resp_text : string;
  resp_content : string;
  resp_json : option json
}.

Definition ci_lookup (h : gmap string string) (name : string) : option string :=
  h !! lower name.

Inductive transport_result : Type :=
| Response (r : response)
| Failure (what : string).

(** The body [request] returns: a decoded value, or [resp.content]. *)
Inductive resp_body : Type :=
| Decoded (v : pyval)
| Content (b : string).

(** ** errors.py *)

(** [BaseError.__init__] stores the status and the payload, then builds
    its message from [str(error) for error in self.errors]: the payload
    is iterated, which raises on a payload that is not iterable. *)
Definition BaseError (cls : Z -> json -> exn) (http_status : Z) (errors_payload : json) : exn :=
  match py_iter errors_payload with
  | Ok _ => cls http_status errors_payload
  | Raise e => e
  end.

(** ** http_client.py *)

Definition API_VERSION : string := "/v1".

(** [handle_error_response] always raises; the exception is its value. *)
Definition handle_error_response (resp : response) : exn :=
  match resp_json resp with
  | None =>
      Exception ("Unknown HTTP error response. Json expected. "
                 ++ "HTTP response code=" ++ pretty (status_code resp) ++ ". "
                 ++ "HTTP response body=" ++ resp_text resp)
  | Some errors =>
      let resp_code := status_code resp in
      if resp_code =? 422 then BaseError ResourceError resp_code errors
      else if resp_code =? 420 then RateLimitError
      else if (400 <=? resp_code) && (resp_code <? 500) then BaseError RequestError resp_code errors
      else if (500 <=? resp_code) && (resp_code <? 600) then BaseError ServerError resp_code errors
      else Exception "Unknown HTTP error response"
  end.

(** [wrap_envelope]: [{container: body}] *)
Definition wrap_envelope (container : string) (body : json) : json :=
  JObj [(container, body)].

(** Computations that may call the transport: the calls made so far are
    threaded through, and an exception ends the computation. *)
Definition IO (A : Type) : Type := list wire_request -> list wire_request * result A.

Instance IO_ret : MRet IO := fun A a log => (log, Ok a).
Instance IO_bind : MBind IO := fun A B f m log =>
  match m log with
  | (log', Ok a) => f a log'
  | (log', Raise e) => (log', Raise e)
  end.

Definition lift {A : Type} (r : result A) : IO A := fun log => (log, r).
Definition raise {A : Type} (e : exn) : IO A := fun log => (log, Raise e).

(** The calls a computation makes, and its outcome, from a fresh start. *)
Definition run {A : Type} (m : IO A) : list wire_request * result A := m [].
Definition calls {A : Type} (m : IO A) : list wire_request := fst (run m).
Definition outcome {A : Type} (m : IO A) : result A := snd (run m).

Section Client.

(** What the [dotmap] constructor does with an argument that is not a
    mapping depends on the library's version (an empty map, a map built
    from pairs, or an error); it is a parameter here, [None] standing
    for an error raised inside the library. *)
Variable DotMap_other : json -> option pyval.

(** The HTTP transport, [requests.request]. *)
Variable transport : wire_request -> transport_result.

Definition DotMap (arg : json) : result pyval :=
  match arg with
  | JObj _ => Ok (dotmap_value arg)
  | _ => match DotMap_other arg with
         | Some v => Ok v
         | None => Raise DotMapError
         end
  end.

(** [unwrap_envelope]:
    [[DotMap(item) for item in body['items']] if 'items' in body else DotMap(body)] *)
Definition unwrap_envelope (body : json) : result pyval :=
  has_items ← py_in "items" body;
  if has_items : bool then
    items ← py_getitem body "items";
    l ← py_iter items;
    vs ← sequence (map DotMap l);
    Ok (PList vs)
  else DotMap body.

Definition requests_request (w : wire_request) : IO response := fun log =>
  ((log ++ [w])%list,
   match transport w with
   | Response r => Ok r
   | Failure what => Raise (RequestException what)
   end).

Definition is_json_response (resp : response) : bool :=
  match ci_lookup (resp_headers resp) "Content-Type" with
  | Some ct => str_contains "json" ct
  | None => false
  end.

(** [request].  The body is JSON data, on which [json.dumps] does not
    fail, and the timeout is a number that [float()] accepts: a body
    that cannot be serialized and a timeout that cannot be converted
    make the source raise before the call, and are not values of these
    types. *)
Definition request (config : Configuration) (method url : string)
    (params body : json) (kw : kwargs)
  : IO (Z * gmap string string * resp_body) :=
  let url := format_value (base_url config) ++ API_VERSION ++ url in
  authorization ← lift (str_add "OAuth " (api_key config));
  let headers : gmap string string :=
    <["Authorization" := authorization]>
      {["Content-Type" := "application/x-www-form-urlencoded"]} in
  let user_headers : gmap string string :=
    match kw_headers kw with
    | Some (HeadersDict h) => h
    | _ => ∅
    end in
  let headers := user_headers ∪ headers in
  let raw := match kw_raw kw with
             | Some v => truthy v
             | None => false
             end in
  '(headers, data) ← lift
    (match body with
     | JNull => Ok (headers, None)
     | _ =>
         let headers := <["Content-Type" := "application/json"]> headers in
         payload ← (if raw then Ok body
                    else match kw_container kw with
                         | Some c => Ok (wrap_envelope c body)
                         | None => Raise (KeyError "container")
                         end);
         Ok (headers, Some (json_dumps payload))
     end);
  resp ← requests_request {| rq_method := method; rq_url := url;
                             rq_params := params; rq_data := data;
                             rq_headers := headers;
                             rq_timeout := timeout config;
                             rq_verify := verify_ssl config |};
  _ ← (if negb ((200 <=? status_code resp) && (status_code resp <? 300))
       then raise (handle_error_response resp)
       else mret tt);
  body' ← lift
    (if is_json_response resp then
       match resp_json resp with
       | None => Raise JSONDecodeError
       | Some j => v ← (if raw then DotMap j else unwrap_envelope j); Ok (Decoded v)
       end
     else Ok (Content (resp_content resp)));
  mret (status_code resp, resp_headers resp, body').

(** The five verbs pass their own argument by name and the rest of
    [**kwargs] as it is, so a [body] keyword given to [get] or [delete]
    and a [params] keyword given to [post], [put] or [patch] reach
    [request]; that keyword is the extra argument here, [JNull] when the
    caller gave none. *)
Definition get config url params body kw := request config "get" url params body kw.
Definition post config url body params kw := request config "post" url params body kw.
Definition put config url body params kw := request config "put" url params body kw.
Definition patch config url body params kw := request config "patch" url params body kw.
Definition delete config url params body kw := request config "delete" url params body kw.

(** What the transport answered to the calls a computation made. *)
Definition received {A : Type} (m : IO A) : list transport_result :=
  map transport (calls m).

(** What happens to a response once the transport has returned it. *)
Definition after_response (raw : bool) (resp : response)
  : result (Z * gmap string string * resp_body) :=
  if negb ((200 <=? status_code resp) && (status_code resp <? 300))
  then Raise (handle_error_response resp)
  else if is_json_response resp then
    match resp_json resp with
    | None => Raise JSONDecodeError
    | Some j =>
        match (if raw then DotMap j else unwrap_envelope j) with
        | Ok v => Ok (status_code resp, resp_headers resp, Decoded v)
        | Raise e => Raise e
        end
    end
  else Ok (status_code resp, resp_headers resp, Content (resp_content resp)).

End Client.

(** ** The configuration check *)

Section ConfigurationCheck.

Variable DotMap_other : json -> option pyval.
Variable transport : wire_request -> transport_result.

(** What makes an API key or a base URL invalid, and the text of the
    descriptive message. *)
Variable valid_api_key : string -> bool.
Variable valid_base_url : string -> bool.
Variable describe : Configuration -> string.

Definition missing_or_invalid (valid : string -> bool) (o : option string) : bool :=
  match o with
  | None => true
  | Some s => negb (valid s)
  end.

(** Modelled from the spec: the check of the configuration by the
    configuration collaborator, which is not among the source files
    (only [ConfigurationError] is, in [errors.py]).  A missing or
    invalid API key or base URL surfaces as [ConfigurationError], which
    carries a descriptive message only. *)
Definition validate (config : Configuration) : result unit :=
  if missing_or_invalid valid_api_key (api_key config)
     || missing_or_invalid valid_base_url (base_url config)
  then Raise (ConfigurationError (describe config))
  else Ok tt.

(** Modelled from the spec: a request operation of a client, which is
    not among the source files either: the configuration is checked
    before any network call is attempted, then [HttpClient.request]
    does the exchange. *)
Definition client_request (config : Configuration) (method url : string)
    (params body : json) (kw : kwargs)
  : IO (Z * gmap string string * resp_body) :=
  _ ← lift (validate config);
  request DotMap_other transport config method url params body kw.

End ConfigurationCheck.

(** ** Vocabulary of the statements *)

(** [body is not None] *)
Definition has_body (body : json) : bool :=
  match body with
  | JNull => false
  | _ => true
  end.

(** [raw = bool(kwargs['raw']) if 'raw' in kwargs else False] *)
Definition raw_of (kw : kwargs) : bool :=
  match kw_raw kw with
  | Some v => truthy v
  | None => false
  end.

Definition user_headers_of (kw : kwargs) : gmap string string :=
  match kw_headers kw with
  | Some (HeadersDict h) => h
  | _ => ∅
  end.

Definition default_headers (key : string) : gmap string string :=
  <["Authorization" := "OAuth " ++ key]>
    {["Content-Type" := "application/x-www-form-urlencoded"]}.

(** The headers the source builds: the defaults, updated with the
    caller's, then [Content-Type] overwritten when there is a body. *)
Definition sent_headers (key : string) (body : json) (kw : kwargs) : gmap string string :=
  match body with
  | JNull => user_headers_of kw ∪ default_headers key
  | _ => <["Content-Type" := "application/json"]> (user_headers_of kw ∪ default_headers key)
  end.

(** The text [{"component": {"name": "x"}}]. *)
Definition component_name_x : string :=
  "{" ++ dquote ++ "component" ++ dquote ++ ": {"
      ++ dquote ++ "name" ++ dquote ++ ": " ++ dquote ++ "x" ++ dquote ++ "}}".

(** [for error in payload] does not raise. *)
Definition iterable (payload : json) : bool :=
  match payload with
  | JList _ | JObj _ | JStr _ => true
  | _ => false
  end.

(** What the generic exception says when the error body is not JSON. *)
Definition json_expected_message (resp : response) : string :=
  "Unknown HTTP error response. Json expected. HTTP response code="
  ++ pretty (status_code resp) ++ ". HTTP response body=" ++ resp_text resp.

Definition is_configuration_error (e : exn) : bool :=
  match e with
  | ConfigurationError _ => true
  | _ => false
  end.

(** ** Concrete exchanges *)

Definition example_config : Configuration :=
  {| base_url := Some "https://api.example.com"; api_key := Some "secret";
     timeout := 10; verify_ssl := true |}.

Definition no_kwargs : kwargs :=
  {| kw_headers := None; kw_raw := None; kw_container := None |}.

Definition raw_kwargs : kwargs :=
  {| kw_headers := None; kw_raw := Some (JBool true); kw_container := None |}.

Definition component_kwargs : kwargs :=
  {| kw_headers := None; kw_raw := None; kw_container := Some "component" |}.

Definition json_response (status : Z) (j : json) : response :=
  {| status_code := status;
     resp_headers := {[ "content-type" := "application/json; charset=utf-8" ]};
     resp_text := json_dumps j;
     resp_content := json_dumps j;
     resp_json := Some j |}.

Definition text_response (status : Z) (text : string) : response :=
  {| status_code := status;
     resp_headers := {[ "content-type" := "text/plain" ]};
     resp_text := text;
     resp_content := text;
     resp_json := None |}.

(** A transport that answers every call with the same response. *)
Definition reply (resp : response) : wire_request -> transport_result :=
  fun _ => Response resp.

(** A [dotmap] that refuses every argument that is not a mapping. *)
Definition strict_DotMap : json -> option pyval := fun _ => None.

Definition name_x : json := JObj [("name", JStr "x")].

Definition two_items : list json :=
  [JObj [("id", JStr "a"); ("name", JStr "API")]; JObj [("id", JStr "b")]].

Definition body_two_items : list (string * json) :=
  [("page", JInt 1); ("items", JList two_items)].

Definition body_single : list (string * json) :=
  [("id", JStr "a"); ("group", JObj [("name", JStr "core")])].

Definition invalid_name : json :=
  JList [JObj [("code", JStr "invalid"); ("field", JStr "name")]].

Definition calm : response := text_response 420 "Enhance your calm".

Definition internal_error : response := text_response 500 "Internal Error".

Definition multiple_choices : response :=
  json_response 300 (JObj [("message", JStr "Multiple Choices")]).

Definition unconfigured : Configuration :=
  {| base_url := None; api_key := Some EmptyString; timeout := 10; verify_ssl := true |}.


(** ** Vocabulary of the further statements *)

(** The data [request] hands to the transport: nothing without a body,
    else the JSON text of the body, wrapped unless [raw]. *)
Definition sent_data (body : json) (kw : kwargs) : option string :=
  match body with
  | JNull => None
  | _ =>
      if raw_of kw then Some (json_dumps body)
      else match kw_container kw with
           | Some c => Some (json_dumps (wrap_envelope c body))
           | None => None
           end
  end.

Definition sent_request (config : Configuration) (key method url : string)
    (params body : json) (kw : kwargs) : wire_request :=
  {| rq_method := method;
     rq_url := format_value (base_url config) ++ API_VERSION ++ url;
     rq_params := params;
     rq_data := sent_data body kw;
     rq_headers := sent_headers key body kw;
     rq_timeout := timeout config;
     rq_verify := verify_ssl config |}.

(** The body needs no container: there is none, or [raw] is set, or a
    container is given. *)
Definition encodable (body : json) (kw : kwargs) : bool :=
  negb (has_body body) || raw_of kw || bool_decide (is_Some (kw_container kw)).

Definition configured (config : Configuration) : bool :=
  bool_decide (is_Some (api_key config)).

Definition raises_key_error {A : Type} (r : result A) : bool :=
  match r with
  | Raise (KeyError _) => true
  | _ => false
  end.

(** The exception is one of the four the API's error statuses map to;
    if so, the status it stands for. *)
Definition api_error_status (e : exn) : option Z :=
  match e with
  | RateLimitError => Some 420
  | RequestError st _ | ResourceError st _ | ServerError st _ => Some st
  | _ => None
  end.

Definition api_error_payload (e : exn) : option json :=
  match e with
  | RequestError _ p | ResourceError _ p | ServerError _ p => Some p
  | _ => None
  end.

(** The class [handle_error_response] picks for a status. *)
Inductive error_class : Type :=
| ClsResource | ClsRateLimit | ClsRequest | ClsServer.

Definition class_of (e : exn) : option error_class :=
  match e with
  | ResourceError _ _ => Some ClsResource
  | RateLimitError => Some ClsRateLimit
  | RequestError _ _ => Some ClsRequest
  | ServerError _ _ => Some ClsServer
  | _ => None
  end.

Definition class_range (c : error_class) (status : Z) : Prop :=
  match c with
  | ClsResource => status = 422
  | ClsRateLimit => status = 420
  | ClsRequest => 400 <= status < 500 /\ status <> 422 /\ status <> 420
  | ClsServer => 500 <= status < 600
  end.


(** A call with the given method and query parameters and no data,
    under the default [Content-Type] unless the caller's headers set
    one. *)
Definition query_call (name : string) (params : json) (kw : kwargs)
    (w : wire_request) : Prop :=
  rq_method w = name /\ rq_params w = params /\ rq_data w = None
  /\ rq_headers w !! "Content-Type"
     = Some (default "application/x-www-form-urlencoded"
               (user_headers_of kw !! "Content-Type")).

(** A call with the given method and no query parameters; with a body,
    the data is the JSON text of the body under the container and the
    [Content-Type] is [application/json]; without one there is no
    data. *)
Definition body_call (name c : string) (body : json) (w : wire_request) : Prop :=
  rq_method w = name /\ rq_params w = JNull
  /\ (if has_body body
      then rq_data w = Some (json_dumps (JObj [(c, body)]))
           /\ rq_headers w !! "Content-Type" = Some "application/json"
      else rq_data w = None).

(** A key or a URL is taken for valid when it is not empty. *)
Definition nonempty (s : string) : bool := negb (String.eqb s EmptyString).

Definition describe_by_key (config : Configuration) : string :=
  match api_key config with
  | None => "no API key"
  | Some _ => "invalid configuration"
  end.

Definition timed_out : wire_request -> transport_result :=
  fun _ => Failure "timed out".

Definition html_response : response :=
  {| status_code := 200;
     resp_headers := {[ "content-type" := "text/html" ]};
     resp_text := "<html></html>";
     resp_content := "<html></html>";
     resp_json := None |}.

Definition broken_json_response : response :=
  {| status_code := 200;
     resp_headers := {[ "content-type" := "application/json" ]};
     resp_text := "{";
     resp_content := "{";
     resp_json := None |}.

Definition odd_kwargs : kwargs :=
  {| kw_headers := Some HeadersOther; kw_raw := Some (JInt 0);
     kw_container := Some "component" |}.

Definition paged_body : list (string * json) :=
  [("items", JList two_items); ("total", JInt 2)].

(** ** Induction on nested JSON data *)

Section JsonInd.
Variable P : json -> Prop.
Hypothesis HNull : P JNull.
Hypothesis HBool : forall b, P (JBool b).
Hypothesis HInt : forall z, P (JInt z).
Hypothesis HStr : forall s, P (JStr s).
Hypothesis HList : forall l, Forall P l -> P (JList l).
Hypothesis HObj : forall kvs, Forall (fun kv => P (snd kv)) kvs -> P (JObj kvs).

Fixpoint json_nested_ind (j : json) : P j :=
  match j with
  | JNull => HNull
  | JBool b => HBool b
  | JInt z => HInt z
  | JStr s => HStr s
  | JList l =>
      HList l ((fix go (l : list json) : Forall P l :=
                  match l with
                  | [] => @Stdlib.Lists.List.Forall_nil _ P
                  | x :: tl => @Stdlib.Lists.List.Forall_cons _ P x tl (json_nested_ind x) (go tl)
                  end) l)
  | JObj kvs =>
      HObj kvs ((fix go (kvs : list (string * json)) : Forall (fun kv => P (snd kv)) kvs :=
                   match kvs with
                   | [] => @Stdlib.Lists.List.Forall_nil _ _
                   | x :: tl => @Stdlib.Lists.List.Forall_cons _ (fun kv => P (snd kv)) x tl (json_nested_ind (snd x)) (go tl)
                   end) kvs)
  end.
End JsonInd.

(** * Properties *)

Lemma map_id_Forall {A : Type} (f : A -> A) (l : list A) :
  Forall (fun x => f x = x) l -> map f l = l.
Proof.
  induction 1 as [|x tl Hx _ IH]; simpl; [reflexivity|].
  now rewrite Hx, IH.
Qed.

Lemma to_json_embed (j : json) : to_json (embed j) = j.
Proof.
  induction j as [| | | |l IH|kvs IH] using json_nested_ind; simpl; try reflexivity.
  - f_equal. rewrite map_map. now apply map_id_Forall.
  - f_equal. rewrite map_map. apply map_id_Forall.
    eapply Forall_impl; [exact IH|]. intros [k v] Hv; simpl in *. now rewrite Hv.
Qed.

Lemma to_json_dotmap_value (j : json) : to_json (dotmap_value j) = j.
Proof.
  induction j as [| | | |l IH|kvs IH] using json_nested_ind; simpl; try reflexivity.
  - f_equal. rewrite map_map. apply map_id_Forall.
    eapply Forall_impl; [exact IH|]. intros x Hx; simpl in *.
    destruct x; try exact Hx; apply (to_json_embed _).
  - f_equal. rewrite map_map. apply map_id_Forall.
    eapply Forall_impl; [exact IH|]. intros [k v] Hv; simpl in *. now rewrite Hv.
Qed.

Lemma mapping_keys_dotmap_value (kvs : list (string * json)) :
  mapping_keys (dotmap_value (JObj kvs)) = dict_keys kvs.
Proof.
  simpl. unfold dict_keys. rewrite map_map. reflexivity.
Qed.

Lemma is_mapping_dotmap_value (j : json) :
  is_obj j = true -> is_mapping (dotmap_value j) = true.
Proof. destruct j; simpl; congruence. Qed.

Lemma py_in_dict (kvs : list (string * json)) (k : string) :
  py_in k (JObj kvs) = Ok (match dict_get kvs k with Some _ => true | None => false end).
Proof.
  simpl. f_equal. destruct (dict_get kvs k).
  - apply bool_decide_eq_true. eauto.
  - apply bool_decide_eq_false. intros [? ?]. discriminate.
Qed.

(** ** Envelope unwrapping *)

Section Unwrap.

Variable DotMap_other : json -> option pyval.

Lemma sequence_DotMap_objects (items : list json) :
  Forall (fun i => is_obj i = true) items ->
  sequence (map (DotMap DotMap_other) items) = Ok (map dotmap_value items).
Proof.
  induction 1 as [|i tl Hi _ IH]; simpl; [reflexivity|].
  rewrite IH. destruct i; simpl in Hi; try discriminate. reflexivity.
Qed.

Lemma unwrap_envelope_items (kvs : list (string * json)) (items : list json) :
  dict_get kvs "items" = Some (JList items) ->
  Forall (fun i => is_obj i = true) items ->
  unwrap_envelope DotMap_other (JObj kvs) = Ok (PList (map dotmap_value items)).
Proof.
  intros Hget Hobj. unfold unwrap_envelope.
  rewrite py_in_dict, Hget. simpl. rewrite Hget. simpl.
  now rewrite sequence_DotMap_objects.
Qed.

Lemma unwrap_envelope_single (kvs : list (string * json)) :
  dict_get kvs "items" = None ->
  unwrap_envelope DotMap_other (JObj kvs) = Ok (dotmap_value (JObj kvs)).
Proof.
  intros Hget. unfold unwrap_envelope.
  rewrite py_in_dict, Hget. reflexivity.
Qed.

(** C1.  Unwrapping the decoded body of a JSON response: when the body
    has an [items] key holding a list of N objects, the result is a list
    of exactly N mappings, the i-th one a [DotMap] with the keys of the
    i-th element in their order, and equal to it as data; when the body
    has no [items] key, the result is one mapping, equal to the body. *)
Theorem unwrap_envelope_correct (kvs : list (string * json)) :
  (forall items : list json,
      dict_get kvs "items" = Some (JList items) ->
      Forall (fun i => is_obj i = true) items ->
      exists vs : list pyval,
        unwrap_envelope DotMap_other (JObj kvs) = Ok (PList vs) /\
        length vs = length items /\
        Forall2 (fun i v => is_mapping v = true /\
                            mapping_keys v = json_keys i /\
                            to_json v = i) items vs)
  /\
  (dict_get kvs "items" = None ->
   exists v : pyval,
     unwrap_envelope DotMap_other (JObj kvs) = Ok v /\
     is_mapping v = true /\
     mapping_keys v = dict_keys kvs /\
     to_json v = JObj kvs).
Proof.
  split.
  - intros items Hget Hobj. exists (map dotmap_value items).
    split; [now apply unwrap_envelope_items|].
    split; [apply length_map|].
    clear Hget. induction Hobj as [|i tl Hi _ IH]; simpl; constructor; [|exact IH].
    repeat split.
    + now apply is_mapping_dotmap_value.
    + destruct i; try discriminate. apply mapping_keys_dotmap_value.
    + apply to_json_dotmap_value.
  - intros Hget. exists (dotmap_value (JObj kvs)).
    split; [now apply unwrap_envelope_single|].
    split; [reflexivity|].
    split; [apply mapping_keys_dotmap_value | apply to_json_dotmap_value].
Qed.

End Unwrap.

Lemma unwrap_envelope_correct_witness :
  (exists vs : list pyval,
      unwrap_envelope (fun _ => None) (JObj body_two_items) = Ok (PList vs) /\
      length vs = length two_items /\
      Forall2 (fun i v => is_mapping v = true /\
                          mapping_keys v = json_keys i /\
                          to_json v = i) two_items vs)
  /\
  (exists v : pyval,
      unwrap_envelope (fun _ => None) (JObj body_single) = Ok v /\
      is_mapping v = true /\
      mapping_keys v = dict_keys body_single /\
      to_json v = JObj body_single).
Proof.
  split.
  - apply (proj1 (unwrap_envelope_correct (fun _ => None) body_two_items) two_items).
    + reflexivity.
    + repeat constructor.
  - apply (proj2 (unwrap_envelope_correct (fun _ => None) body_single)).
    reflexivity.
Defined.

(** ** One exchange with the transport *)

Section Exchange.

Variable DotMap_other : json -> option pyval.
Variable transport : wire_request -> transport_result.

Abbreviation request := (request DotMap_other transport).
Abbreviation received := (received transport).
Abbreviation after_response := (after_response DotMap_other).

Lemma request_run (config : Configuration) (method url : string)
    (params body : json) (kw : kwargs) :
  run (request config method url params body kw) =
  match api_key config with
  | None => ([], Raise TypeError)
  | Some key =>
      let headers := user_headers_of kw ∪ default_headers key in
      let send headers data :=
        let w := {| rq_method := method;
                    rq_url := format_value (base_url config) ++ API_VERSION ++ url;
                    rq_params := params; rq_data := data; rq_headers := headers;
                    rq_timeout := timeout config; rq_verify := verify_ssl config |} in
        ([w], match transport w with
              | Response resp => after_response (raw_of kw) resp
              | Failure what => Raise (RequestException what)
              end) in
      match body with
      | JNull => send headers None
      | _ =>
          let headers := <["Content-Type" := "application/json"]> headers in
          if raw_of kw then send headers (Some (json_dumps body))
          else match kw_container kw with
               | Some c => send headers (Some (json_dumps (wrap_envelope c body)))
               | None => ([], Raise (KeyError "container"))
               end
      end
  end.
Proof.
  unfold run, request.
  fold (raw_of kw). fold (user_headers_of kw).
  destruct (api_key config) as [key|]; [|reflexivity].
  fold (default_headers key).
  assert (Hsend : forall w,
    (requests_request transport w ≫= λ resp : response,
       (if negb ((200 <=? status_code resp) && (status_code resp <? 300))
        then raise (handle_error_response resp) else mret ()) ≫= λ _ : (),
       lift (if is_json_response resp
             then match resp_json resp with
                  | Some j =>
                      (if raw_of kw then DotMap DotMap_other j
                       else unwrap_envelope DotMap_other j) ≫= λ v : pyval, Ok (Decoded v)
                  | None => Raise JSONDecodeError
                  end
             else Ok (Content (resp_content resp))) ≫= λ body' : resp_body,
       mret (status_code resp, resp_headers resp, body')) [] =
    ([w], match transport w with
          | Response resp => after_response (raw_of kw) resp
          | Failure what => Raise (RequestException what)
          end)).
  { intros w. unfold mbind, mret, IO_bind, IO_ret, lift, raise, requests_request,
      after_response, result_bind.
    simpl. destruct (transport w) as [resp|what]; [|reflexivity].
    destruct (negb _); [reflexivity|].
    destruct (is_json_response resp); [|reflexivity].
    destruct (resp_json resp) as [j|]; [|reflexivity].
    destruct (if raw_of kw then _ else _); reflexivity. }
  destruct body; try apply Hsend;
    (destruct (raw_of kw); [apply Hsend|]);
    (destruct (kw_container kw); [apply Hsend|reflexivity]).
Qed.

Lemma request_outcome (config : Configuration) (method url : string)
    (params body : json) (kw : kwargs) (resp : response) :
  received (request config method url params body kw) = [Response resp] ->
  outcome (request config method url params body kw) = after_response (raw_of kw) resp.
Proof.
  unfold received, calls, outcome. rewrite request_run.
  destruct (api_key config) as [key|]; [|discriminate].
  destruct body; simpl;
    try (intros [= ->]; reflexivity);
    (destruct (raw_of kw); simpl; [intros [= ->]; reflexivity|]);
    (destruct (kw_container kw); simpl; [intros [= ->]; reflexivity|discriminate]).
Qed.

(** A successful JSON response, [raw] false: the decoded body goes
    through [unwrap_envelope]. *)
Lemma request_unwraps (config : Configuration) (method url : string)
    (params body : json) (kw : kwargs) (resp : response) (j : json) :
  received (request config method url params body kw) = [Response resp] ->
  200 <= status_code resp < 300 ->
  is_json_response resp = true ->
  resp_json resp = Some j ->
  raw_of kw = false ->
  outcome (request config method url params body kw)
  = (v ← unwrap_envelope DotMap_other j;
     Ok (status_code resp, resp_headers resp, Decoded v)).
Proof.
  intros Hrecv Hstatus Hjson Hdecoded Hraw.
  rewrite (request_outcome _ _ _ _ _ _ _ Hrecv), Hraw. unfold after_response.
  replace ((200 <=? status_code resp) && (status_code resp <? 300)) with true
    by (symmetry; apply andb_true_iff; split; [apply Z.leb_le|apply Z.ltb_lt]; lia).
  simpl. rewrite Hjson, Hdecoded. reflexivity.
Qed.

Lemma request_calls_url (config : Configuration) (method url : string)
    (params body : json) (kw : kwargs) :
  Forall (fun w => rq_url w = format_value (base_url config) ++ API_VERSION ++ url)
    (calls (request config method url params body kw)).
Proof.
  unfold calls. rewrite request_run.
  destruct (api_key config) as [key|]; [|constructor].
  destruct body; simpl;
    try (repeat constructor);
    (destruct (raw_of kw); simpl; [repeat constructor|]);
    (destruct (kw_container kw); simpl; repeat constructor).
Qed.

(** C8.  The URL handed to the transport is the configured base URL,
    then the API version segment [/v1], then the caller's path: on
    every call the client makes, and it does make exactly that call when
    the API key is configured and no body is to be encoded; so path
    [/components] under [https://api.example.com] is requested at
    [https://api.example.com/v1/components]. *)
Theorem request_url_composition
    (b : string) (k : option string) (key : string) (t : Z) (v : bool)
    (method url : string) (params body : json) (kw : kwargs) :
  API_VERSION = "/v1"
  /\ Forall (fun w => rq_url w = b ++ "/v1" ++ url)
       (calls (request {| base_url := Some b; api_key := k;
                          timeout := t; verify_ssl := v |}
                 method url params body kw))
  /\ map rq_url
       (calls (request {| base_url := Some b; api_key := Some key;
                          timeout := t; verify_ssl := v |}
                 method url params JNull kw))
     = [b ++ "/v1" ++ url]
  /\ map rq_url
       (calls (request {| base_url := Some "https://api.example.com";
                          api_key := Some key; timeout := t; verify_ssl := v |}
                 method "/components" params JNull kw))
     = ["https://api.example.com/v1/components"].
Proof.
  split; [reflexivity|].
  split; [apply (request_calls_url {| base_url := Some b |})|].
  split; unfold calls; rewrite request_run; reflexivity.
Qed.

Lemma default_headers_lookup (key name : string) :
  default_headers key !! name =
  if bool_decide (name = "Authorization") then Some ("OAuth " ++ key)
  else if bool_decide (name = "Content-Type")
       then Some "application/x-www-form-urlencoded"
       else None.
Proof.
  unfold default_headers.
  rewrite lookup_insert. case_decide as H1; subst.
  - reflexivity.
  - rewrite bool_decide_eq_false_2 by congruence.
    rewrite lookup_singleton. case_decide as H2; subst.
    + reflexivity.
    + rewrite bool_decide_eq_false_2 by congruence. reflexivity.
Qed.

Lemma request_calls_headers (config : Configuration) (method url : string)
    (params body : json) (kw : kwargs) :
  Forall (fun w => exists key, api_key config = Some key /\
                               rq_headers w = sent_headers key body kw)
    (calls (request config method url params body kw)).
Proof.
  unfold calls. rewrite request_run.
  destruct (api_key config) as [key|]; [|constructor].
  destruct body; simpl;
    try (repeat constructor; exists key; split; reflexivity);
    (destruct (raw_of kw); simpl; [repeat constructor; exists key; split; reflexivity|]);
    (destruct (kw_container kw); simpl; repeat constructor; exists key; split; reflexivity).
Qed.

Lemma sent_headers_lookup (key : string) (body : json) (kw : kwargs) (name : string) :
  sent_headers key body kw !! name =
  if has_body body && bool_decide (name = "Content-Type")
  then Some "application/json"
  else match user_headers_of kw !! name with
       | Some value => Some value
       | None => default_headers key !! name
       end.
Proof.
  assert (Hmerge : (user_headers_of kw ∪ default_headers key) !! name =
                   match user_headers_of kw !! name with
                   | Some value => Some value
                   | None => default_headers key !! name
                   end).
  { rewrite lookup_union. destruct (user_headers_of kw !! name) as [u|];
      destruct (default_headers key !! name); reflexivity. }
  destruct body; simpl; try exact Hmerge;
    (rewrite lookup_insert; case_decide as Hn;
     [ subst; reflexivity
     | rewrite bool_decide_eq_false_2 by congruence; exact Hmerge ]).
Qed.

(** C9.  On every call the client makes, the API key is configured and
    each header sent is: [application/json] for [Content-Type] when a
    body is supplied; otherwise the caller's value for that name when
    the caller supplied one; otherwise the default, which is
    [application/x-www-form-urlencoded] for [Content-Type], [OAuth]
    followed by the API key for [Authorization], and nothing for any
    other name.  Such a call is made: without a body its headers are the
    defaults updated with the caller's, and with a body to wrap they are
    those with [Content-Type] set to [application/json]. *)
Theorem request_headers_built (config : Configuration) (method url : string)
    (params body : json) (kw : kwargs) :
  Forall (fun w =>
            exists key, api_key config = Some key /\
              forall name,
                rq_headers w !! name =
                if has_body body && bool_decide (name = "Content-Type")
                then Some "application/json"
                else match user_headers_of kw !! name with
                     | Some value => Some value
                     | None =>
                         if bool_decide (name = "Authorization")
                         then Some ("OAuth " ++ key)
                         else if bool_decide (name = "Content-Type")
                              then Some "application/x-www-form-urlencoded"
                              else None
                     end)
    (calls (request config method url params body kw))
  /\ (forall (b : option string) (key : string) (t : Z) (v : bool),
        map rq_headers
          (calls (request {| base_url := b; api_key := Some key;
                             timeout := t; verify_ssl := v |}
                    method url params JNull kw))
        = [user_headers_of kw ∪ default_headers key])
  /\ (forall (b : option string) (key c : string) (t : Z) (v : bool)
             (h : option headers_arg) (fields : list (string * json)),
        map rq_headers
          (calls (request {| base_url := b; api_key := Some key;
                             timeout := t; verify_ssl := v |}
                    method url params (JObj fields)
                    {| kw_headers := h; kw_raw := None; kw_container := Some c |}))
        = [<["Content-Type" := "application/json"]>
             (user_headers_of {| kw_headers := h; kw_raw := None;
                                 kw_container := Some c |}
              ∪ default_headers key)]).
Proof.
  split; [|split].
  - eapply Forall_impl; [apply request_calls_headers|].
    intros w (key & Hkey & ->). exists key. split; [exact Hkey|].
    intros name. rewrite sent_headers_lookup, default_headers_lookup. reflexivity.
  - intros. unfold calls. rewrite request_run. reflexivity.
  - intros. unfold calls. rewrite request_run. reflexivity.
Qed.

(** C10.  A body with [raw] false or absent and no [container] option:
    the transport is never invoked and the operation ends in an
    exception, which is the [KeyError] of the [container] lookup
    whenever the API key is configured. *)
Theorem request_without_container (config : Configuration) (method url : string)
    (params body : json) (kw : kwargs) :
  has_body body = true ->
  raw_of kw = false ->
  kw_container kw = None ->
  calls (request config method url params body kw) = []
  /\ (exists e, outcome (request config method url params body kw) = Raise e)
  /\ (forall key, api_key config = Some key ->
        run (request config method url params body kw)
        = ([], Raise (KeyError "container"))).
Proof.
  intros Hbody Hraw Hc. unfold calls, outcome. rewrite request_run, Hraw, Hc.
  destruct (api_key config) as [key|].
  - destruct body; try discriminate; simpl; eauto.
  - simpl. split; [reflexivity|]. split; [eauto|]. intros ? [=].
Qed.

(** C7.  With a body [B], [raw] false and container [C]: the wrapped
    body is the one-key mapping from [C] to [B], and the data of the one
    call made is its JSON text; the body with [name] set to [x] under
    container [component] goes out as the text
    [{"component": {"name": "x"}}]. *)
Theorem request_wraps_body (config : Configuration) (method url : string)
    (params body : json) (kw : kwargs) (key c : string) :
  api_key config = Some key ->
  has_body body = true ->
  raw_of kw = false ->
  kw_container kw = Some c ->
  wrap_envelope c body = JObj [(c, body)]
  /\ map rq_data (calls (request config method url params body kw))
     = [Some (json_dumps (JObj [(c, body)]))]
  /\ json_dumps (wrap_envelope "component" (JObj [("name", JStr "x")]))
     = component_name_x.
Proof.
  intros Hkey Hbody Hraw Hc.
  assert (Hdata : map rq_data (calls (request config method url params body kw))
                  = [Some (json_dumps (JObj [(c, body)]))]).
  { unfold calls. rewrite request_run, Hkey, Hraw, Hc.
    destruct body; try discriminate; reflexivity. }
  split; [reflexivity|]. split; [exact Hdata|]. reflexivity.
Qed.

(** C6.  With [raw] true: the data of every call made is the JSON text
    of the body itself (no data when there is no body), and a
    successful JSON response is returned as [DotMap] of the decoded
    body, never unwrapped; a decoded object comes back as one mapping
    with the same items, its [items] key included. *)
Theorem request_raw (config : Configuration) (method url : string)
    (params body : json) (kw : kwargs) :
  raw_of kw = true ->
  Forall (fun w => rq_data w = if has_body body then Some (json_dumps body) else None)
    (calls (request config method url params body kw))
  /\ (forall (resp : response) (j : json),
        received (request config method url params body kw) = [Response resp] ->
        200 <= status_code resp < 300 ->
        is_json_response resp = true ->
        resp_json resp = Some j ->
        outcome (request config method url params body kw)
        = (v ← DotMap DotMap_other j;
           Ok (status_code resp, resp_headers resp, Decoded v))
        /\ (forall kvs, j = JObj kvs ->
              outcome (request config method url params body kw)
              = Ok (status_code resp, resp_headers resp, Decoded (dotmap_value j))
              /\ is_mapping (dotmap_value j) = true
              /\ mapping_keys (dotmap_value j) = dict_keys kvs
              /\ to_json (dotmap_value j) = j)).
Proof.
  intros Hraw. split.
  - unfold calls. rewrite request_run, Hraw.
    destruct (api_key config) as [key|]; [|constructor].
    destruct body; simpl; repeat constructor.
  - intros resp j Hrecv Hstatus Hjson Hdecoded.
    assert (Hout : outcome (request config method url params body kw)
                   = (v ← DotMap DotMap_other j;
                      Ok (status_code resp, resp_headers resp, Decoded v))).
    { rewrite (request_outcome _ _ _ _ _ _ _ Hrecv), Hraw. unfold after_response.
      replace ((200 <=? status_code resp) && (status_code resp <? 300)) with true
        by (symmetry; apply andb_true_iff; split; [apply Z.leb_le|apply Z.ltb_lt]; lia).
      simpl. rewrite Hjson, Hdecoded. reflexivity. }
    split; [exact Hout|].
    intros kvs ->. rewrite Hout.
    split; [reflexivity|]. split; [reflexivity|].
    split; [apply mapping_keys_dotmap_value|apply to_json_dotmap_value].
Qed.

(** ** Error classification *)

Lemma request_error (config : Configuration) (method url : string)
    (params body : json) (kw : kwargs) (resp : response) :
  received (request config method url params body kw) = [Response resp] ->
  ~ (200 <= status_code resp < 300) ->
  outcome (request config method url params body kw)
  = Raise (handle_error_response resp).
Proof.
  intros Hrecv Hstatus. rewrite (request_outcome _ _ _ _ _ _ _ Hrecv).
  unfold after_response.
  destruct ((200 <=? status_code resp) && (status_code resp <? 300)) eqn:E;
    [|reflexivity].
  apply andb_true_iff in E as [?%Z.leb_le ?%Z.ltb_lt]. lia.
Qed.

Lemma BaseError_iterable (cls : Z -> json -> exn) (http_status : Z) (payload : json) :
  iterable payload = true -> BaseError cls http_status payload = cls http_status payload.
Proof. destruct payload; simpl; try discriminate; reflexivity. Qed.

Lemma BaseError_scalar (cls : Z -> json -> exn) (http_status : Z) (payload : json) :
  iterable payload = false -> BaseError cls http_status payload = TypeError.
Proof. destruct payload; simpl; try discriminate; reflexivity. Qed.

Ltac status_tests :=
  repeat match goal with
    | |- context [(?a =? ?b)] =>
        first [ rewrite (proj2 (Z.eqb_eq a b)) by lia
              | rewrite (proj2 (Z.eqb_neq a b)) by lia ]
    | |- context [(?a <=? ?b)] =>
        first [ rewrite (proj2 (Z.leb_le a b)) by lia
              | rewrite (proj2 (Z.leb_gt a b)) by lia ]
    | |- context [(?a <? ?b)] =>
        first [ rewrite (proj2 (Z.ltb_lt a b)) by lia
              | rewrite (proj2 (Z.ltb_ge a b)) by lia ]
    end.

(** The classification where the payload can be iterated.  On a
    response outside 2xx whose body decodes to a JSON value that can be
    iterated (an array, an object or a string): status
    422 fails with [ResourceError] carrying 422 and the payload; any
    other status in [400, 500) but 420 fails with [RequestError]
    carrying the status and the payload; a status in [500, 600) fails
    with [ServerError] carrying the status and the payload. *)
Theorem request_error_classes (config : Configuration) (method url : string)
    (params body : json) (kw : kwargs) (resp : response) (errors : json) :
  received (request config method url params body kw) = [Response resp] ->
  resp_json resp = Some errors ->
  iterable errors = true ->
  (status_code resp = 422 ->
   outcome (request config method url params body kw)
   = Raise (ResourceError 422 errors))
  /\ (400 <= status_code resp < 500 ->
      status_code resp <> 422 -> status_code resp <> 420 ->
      outcome (request config method url params body kw)
      = Raise (RequestError (status_code resp) errors))
  /\ (500 <= status_code resp < 600 ->
      outcome (request config method url params body kw)
      = Raise (ServerError (status_code resp) errors)).
Proof.
  intros Hrecv Hjson Hiter.
  repeat split; intros;
    rewrite (request_error _ _ _ _ _ _ _ Hrecv) by lia;
    unfold handle_error_response; rewrite Hjson; cbv zeta;
    status_tests; simpl; rewrite BaseError_iterable by exact Hiter;
    congruence.
Qed.

(** C2, as the code has it.  On a response with status 420 whose body
    decodes as JSON, whatever the decoded value, the call fails with
    [RateLimitError], which has no status and no error entries; when the
    body does not decode as JSON the call fails with the generic
    exception instead. *)
Theorem request_rate_limited (config : Configuration) (method url : string)
    (params body : json) (kw : kwargs) (resp : response) :
  received (request config method url params body kw) = [Response resp] ->
  status_code resp = 420 ->
  (forall errors, resp_json resp = Some errors ->
     outcome (request config method url params body kw) = Raise RateLimitError)
  /\ (resp_json resp = None ->
      outcome (request config method url params body kw)
      = Raise (Exception (json_expected_message resp))).
Proof.
  intros Hrecv Hstatus.
  rewrite (request_error _ _ _ _ _ _ _ Hrecv) by lia.
  unfold handle_error_response. split.
  - intros errors ->. rewrite Hstatus. reflexivity.
  - intros ->. reflexivity.
Qed.

(** C3, as the code has it.  On a response outside 2xx: when its body
    does not decode as JSON the call fails with the generic exception whose
    message ends with the status code and then the response text,
    verbatim; when the body decodes as JSON and the status is outside
    [400, 600) the call fails with the generic exception whose message
    is fixed and carries neither. *)
Theorem request_unknown_error (config : Configuration) (method url : string)
    (params body : json) (kw : kwargs) (resp : response) :
  received (request config method url params body kw) = [Response resp] ->
  ~ (200 <= status_code resp < 300) ->
  (resp_json resp = None ->
   outcome (request config method url params body kw)
   = Raise (Exception ("Unknown HTTP error response. Json expected. HTTP response code="
                       ++ pretty (status_code resp)
                       ++ ". HTTP response body=" ++ resp_text resp)))
  /\ (forall errors, resp_json resp = Some errors ->
        ~ (400 <= status_code resp < 600) ->
        outcome (request config method url params body kw)
        = Raise (Exception "Unknown HTTP error response")).
Proof.
  intros Hrecv Hstatus.
  rewrite (request_error _ _ _ _ _ _ _ Hrecv) by exact Hstatus.
  unfold handle_error_response. split.
  - intros ->. reflexivity.
  - intros errors -> Hrange. cbv zeta.
    destruct (Z_lt_ge_dec (status_code resp) 400);
      status_tests; reflexivity.
Qed.

(** ** Configuration *)

Lemma BaseError_not_configuration (cls : Z -> json -> exn) (http_status : Z) (payload : json) :
  is_configuration_error (cls http_status payload) = false ->
  is_configuration_error (BaseError cls http_status payload) = false.
Proof. intros H. destruct payload; simpl; auto. Qed.

Lemma handle_error_response_not_configuration (resp : response) :
  is_configuration_error (handle_error_response resp) = false.
Proof.
  unfold handle_error_response.
  destruct (resp_json resp) as [errors|]; [|reflexivity]. cbv zeta.
  repeat match goal with
    | |- context [if ?b then _ else _] => destruct b
    end;
    try reflexivity; now apply BaseError_not_configuration.
Qed.

Lemma DotMap_not_configuration (j : json) (e : exn) :
  DotMap DotMap_other j = Raise e -> is_configuration_error e = false.
Proof.
  unfold DotMap. destruct j; try discriminate;
    destruct (DotMap_other _); intros [= <-]; reflexivity.
Qed.

Lemma sequence_DotMap_not_configuration (l : list json) (e : exn) :
  sequence (map (DotMap DotMap_other) l) = Raise e ->
  is_configuration_error e = false.
Proof.
  induction l as [|j tl IH]; simpl; [discriminate|].
  destruct (DotMap DotMap_other j) as [v|e'] eqn:Ej; simpl.
  - destruct (sequence (map (DotMap DotMap_other) tl)) as [vs|e'']; simpl;
      [discriminate|]. intros [= <-]. now apply IH.
  - intros [= <-]. now apply DotMap_not_configuration in Ej.
Qed.

Lemma unwrap_envelope_not_configuration (j : json) (e : exn) :
  unwrap_envelope DotMap_other j = Raise e -> is_configuration_error e = false.
Proof.
  unfold unwrap_envelope.
  destruct (py_in "items" j) as [[|]|e1] eqn:Ein; simpl.
  - destruct (py_getitem j "items") as [items|e2] eqn:Eget; simpl.
    + destruct (py_iter items) as [l|e3] eqn:Eit; simpl.
      * destruct (sequence (map (DotMap DotMap_other) l)) as [vs|e4] eqn:Eseq; simpl;
          [discriminate|]. intros [= <-].
        now apply sequence_DotMap_not_configuration in Eseq.
      * intros [= <-]. destruct items; simpl in Eit; try discriminate;
          injection Eit as <-; reflexivity.
    + intros [= <-]. destruct j; simpl in Eget; try (injection Eget as <-; reflexivity).
      destruct (dict_get kvs "items"); [discriminate|].
      injection Eget as <-; reflexivity.
  - apply DotMap_not_configuration.
  - intros [= <-]. destruct j; simpl in Ein; try discriminate;
      injection Ein as <-; reflexivity.
Qed.

Lemma after_response_not_configuration (raw : bool) (resp : response) (e : exn) :
  after_response raw resp = Raise e -> is_configuration_error e = false.
Proof.
  unfold after_response.
  destruct (negb _).
  - intros [= <-]. apply handle_error_response_not_configuration.
  - destruct (is_json_response resp); [|discriminate].
    destruct (resp_json resp) as [j|]; [|intros [= <-]; reflexivity].
    destruct raw.
    + destruct (DotMap DotMap_other j) eqn:E; [discriminate|].
      intros [= <-]. now apply DotMap_not_configuration in E.
    + destruct (unwrap_envelope DotMap_other j) eqn:E; [discriminate|].
      intros [= <-]. now apply unwrap_envelope_not_configuration in E.
Qed.

Lemma request_not_configuration (config : Configuration) (method url : string)
    (params body : json) (kw : kwargs) (e : exn) :
  outcome (request config method url params body kw) = Raise e ->
  is_configuration_error e = false.
Proof.
  unfold outcome. rewrite request_run.
  assert (Hsend : forall w,
    match transport w with
    | Response resp => after_response (raw_of kw) resp
    | Failure what => Raise (RequestException what)
    end = Raise e -> is_configuration_error e = false).
  { intros w. destruct (transport w).
    - apply after_response_not_configuration.
    - intros [= <-]. reflexivity. }
  destruct (api_key config) as [key|]; [|intros [= <-]; reflexivity].
  destruct body; simpl; try apply Hsend;
    (destruct (raw_of kw); simpl; [apply Hsend|]);
    (destruct (kw_container kw); simpl; [apply Hsend|intros [= <-]; reflexivity]).
Qed.

(** C4.  For a client whose configuration has a missing or invalid API
    key or base URL, a request operation fails with
    [ConfigurationError] and the transport is never called; for any
    other configuration the check lets the request through unchanged,
    and what it then fails with, if it fails, is never
    [ConfigurationError]: the condition is distinct from every failure
    of the exchange itself. *)
Theorem client_request_configuration_error
    (valid_api_key valid_base_url : string -> bool)
    (describe : Configuration -> string)
    (config : Configuration) (method url : string)
    (params body : json) (kw : kwargs) :
  (missing_or_invalid valid_api_key (api_key config) = true
   \/ missing_or_invalid valid_base_url (base_url config) = true ->
   run (client_request DotMap_other transport valid_api_key valid_base_url describe
          config method url params body kw)
   = ([], Raise (ConfigurationError (describe config))))
  /\ (missing_or_invalid valid_api_key (api_key config) = false ->
      missing_or_invalid valid_base_url (base_url config) = false ->
      run (client_request DotMap_other transport valid_api_key valid_base_url describe
             config method url params body kw)
      = run (request config method url params body kw)
      /\ forall e,
           outcome (client_request DotMap_other transport valid_api_key valid_base_url
                      describe config method url params body kw)
           = Raise e ->
           is_configuration_error e = false).
Proof.
  unfold client_request, validate. split.
  - intros H.
    replace (missing_or_invalid valid_api_key (api_key config)
             || missing_or_invalid valid_base_url (base_url config)) with true
      by (symmetry; apply orb_true_iff; exact H).
    reflexivity.
  - intros -> ->. split; [reflexivity|].
    intros e He. apply (request_not_configuration config method url params body kw).
    exact He.
Qed.

End Exchange.

Lemma client_request_configuration_error_witness :
  ((missing_or_invalid nonempty (api_key unconfigured) = true
    \/ missing_or_invalid nonempty (base_url unconfigured) = true) /\
   run (client_request strict_DotMap (reply (json_response 200 (JObj [])))
          nonempty nonempty describe_by_key
          unconfigured "get" "/components" JNull JNull no_kwargs)
   = ([], Raise (ConfigurationError "invalid configuration")))
  /\ (missing_or_invalid nonempty (api_key example_config) = false /\
      missing_or_invalid nonempty (base_url example_config) = false /\
      run (client_request strict_DotMap (reply (json_response 200 (JObj [])))
             nonempty nonempty describe_by_key
             example_config "get" "/components" JNull JNull no_kwargs)
      = run (request strict_DotMap (reply (json_response 200 (JObj [])))
               example_config "get" "/components" JNull JNull no_kwargs)).
Proof.
  split.
  - split; [left; reflexivity|].
    apply (proj1 (client_request_configuration_error strict_DotMap
                    (reply (json_response 200 (JObj []))) nonempty nonempty
                    describe_by_key unconfigured "get" "/components" JNull JNull
                    no_kwargs)).
    left; reflexivity.
  - do 2 (split; [reflexivity|]).
    apply (proj2 (client_request_configuration_error strict_DotMap
                    (reply (json_response 200 (JObj []))) nonempty nonempty
                    describe_by_key example_config "get" "/components" JNull JNull
                    no_kwargs)); reflexivity.
Defined.

Lemma request_without_container_witness :
  has_body name_x = true /\ raw_of no_kwargs = false /\ kw_container no_kwargs = None /\
  run (request strict_DotMap (reply (json_response 201 name_x)) example_config
         "post" "/components" JNull name_x no_kwargs)
  = ([], Raise (KeyError "container")).
Proof.
  do 3 (split; [reflexivity|]).
  refine (proj2 (proj2 (request_without_container strict_DotMap
                          (reply (json_response 201 name_x)) example_config
                          "post" "/components" JNull name_x no_kwargs _ _ _))
            "secret" _); reflexivity.
Defined.

Lemma request_wraps_body_witness :
  api_key example_config = Some "secret" /\ has_body name_x = true /\
  raw_of component_kwargs = false /\ kw_container component_kwargs = Some "component" /\
  map rq_data
    (calls (request strict_DotMap (reply (json_response 201 name_x)) example_config
              "post" "/components" JNull name_x component_kwargs))
  = [Some component_name_x].
Proof.
  do 4 (split; [reflexivity|]).
  refine (proj1 (proj2 (request_wraps_body strict_DotMap
                          (reply (json_response 201 name_x)) example_config
                          "post" "/components" JNull name_x component_kwargs
                          "secret" "component" _ _ _ _))); reflexivity.
Defined.

Lemma request_raw_witness :
  raw_of raw_kwargs = true /\
  received (reply (json_response 200 (JObj body_two_items)))
    (request strict_DotMap (reply (json_response 200 (JObj body_two_items)))
       example_config "post" "/components" JNull name_x raw_kwargs)
  = [Response (json_response 200 (JObj body_two_items))] /\
  map rq_data
    (calls (request strict_DotMap (reply (json_response 200 (JObj body_two_items)))
              example_config "post" "/components" JNull name_x raw_kwargs))
  = [Some (json_dumps name_x)] /\
  outcome (request strict_DotMap (reply (json_response 200 (JObj body_two_items)))
             example_config "post" "/components" JNull name_x raw_kwargs)
  = Ok (200, resp_headers (json_response 200 (JObj body_two_items)),
        Decoded (dotmap_value (JObj body_two_items))).
Proof.
  split; [reflexivity|]. split; [vm_compute; reflexivity|].
  split; [vm_compute; reflexivity|].
  refine (proj1 (proj2 (proj2 (request_raw strict_DotMap
                                 (reply (json_response 200 (JObj body_two_items)))
                                 example_config "post" "/components" JNull name_x
                                 raw_kwargs _)
                          (json_response 200 (JObj body_two_items))
                          (JObj body_two_items) _ _ _ _)
                   body_two_items _)).
  - reflexivity.
  - vm_compute; reflexivity.
  - simpl; lia.
  - vm_compute; reflexivity.
  - reflexivity.
  - reflexivity.
Defined.

Lemma request_error_classes_witness :
  (received (reply (json_response 422 invalid_name))
     (request strict_DotMap (reply (json_response 422 invalid_name)) example_config
        "post" "/components" JNull name_x component_kwargs)
   = [Response (json_response 422 invalid_name)] /\
   resp_json (json_response 422 invalid_name) = Some invalid_name /\
   iterable invalid_name = true /\
   outcome (request strict_DotMap (reply (json_response 422 invalid_name)) example_config
              "post" "/components" JNull name_x component_kwargs)
   = Raise (ResourceError 422 invalid_name))
  /\ outcome (request strict_DotMap (reply (json_response 404 (JObj []))) example_config
                "get" "/components/1" JNull JNull no_kwargs)
     = Raise (RequestError 404 (JObj []))
  /\ outcome (request strict_DotMap (reply (json_response 503 (JObj []))) example_config
                "get" "/components" JNull JNull no_kwargs)
     = Raise (ServerError 503 (JObj [])).
Proof.
  split; [|split].
  - split; [vm_compute; reflexivity|]. do 2 (split; [reflexivity|]).
    refine (proj1 (request_error_classes strict_DotMap
                     (reply (json_response 422 invalid_name)) example_config
                     "post" "/components" JNull name_x component_kwargs
                     (json_response 422 invalid_name) invalid_name _ _ _) _);
      solve [reflexivity | vm_compute; reflexivity].
  - refine (proj1 (proj2 (request_error_classes strict_DotMap
                            (reply (json_response 404 (JObj []))) example_config
                            "get" "/components/1" JNull JNull no_kwargs
                            (json_response 404 (JObj [])) (JObj []) _ _ _)) _ _ _);
      solve [reflexivity | vm_compute; reflexivity | simpl; lia].
  - refine (proj2 (proj2 (request_error_classes strict_DotMap
                            (reply (json_response 503 (JObj []))) example_config
                            "get" "/components" JNull JNull no_kwargs
                            (json_response 503 (JObj [])) (JObj []) _ _ _)) _);
      solve [reflexivity | vm_compute; reflexivity | simpl; lia].
Defined.

(** C5.  The classification is attempted and lost on a JSON body that
    cannot be iterated: on status 422 with the body [null] the source
    reaches [raise ResourceError(resp_code, errors)], and the call ends
    in [TypeError], raised while the [ResourceError] is being
    constructed, instead of [ResourceError] carrying 422 and the
    payload. *)
Theorem resource_error_null_payload :
  status_code (json_response 422 JNull) = 422 /\
  resp_json (json_response 422 JNull) = Some JNull /\
  received (reply (json_response 422 JNull))
    (request strict_DotMap (reply (json_response 422 JNull)) example_config
       "post" "/components" JNull name_x component_kwargs)
  = [Response (json_response 422 JNull)] /\
  BaseError ResourceError 422 JNull = TypeError /\
  outcome (request strict_DotMap (reply (json_response 422 JNull)) example_config
             "post" "/components" JNull name_x component_kwargs)
  = Raise TypeError.
Proof.
  do 2 (split; [reflexivity|]).
  split; [vm_compute; reflexivity|]. split; [reflexivity|].
  vm_compute; reflexivity.
Qed.

Lemma request_rate_limited_witness :
  (received (reply (json_response 420 (JObj [])))
     (request strict_DotMap (reply (json_response 420 (JObj []))) example_config
        "get" "/components" JNull JNull no_kwargs)
   = [Response (json_response 420 (JObj []))] /\
   status_code (json_response 420 (JObj [])) = 420 /\
   outcome (request strict_DotMap (reply (json_response 420 (JObj []))) example_config
              "get" "/components" JNull JNull no_kwargs)
   = Raise RateLimitError)
  /\ outcome (request strict_DotMap (reply calm) example_config
                "get" "/components" JNull JNull no_kwargs)
     = Raise (Exception (json_expected_message calm)).
Proof.
  split.
  - split; [vm_compute; reflexivity|]. split; [reflexivity|].
    refine (proj1 (request_rate_limited strict_DotMap
                     (reply (json_response 420 (JObj []))) example_config
                     "get" "/components" JNull JNull no_kwargs
                     (json_response 420 (JObj [])) _ _) (JObj []) _);
      solve [reflexivity | vm_compute; reflexivity].
  - refine (proj2 (request_rate_limited strict_DotMap (reply calm) example_config
                     "get" "/components" JNull JNull no_kwargs calm _ _) _);
      solve [reflexivity | vm_compute; reflexivity].
Defined.

(** C2 as stated fails on a body that is not JSON: status 420 with a
    plain-text body ends in the generic exception, not in
    [RateLimitError]. *)
Lemma rate_limit_text_body_counterexample :
  status_code calm = 420 /\
  outcome (request strict_DotMap (reply calm) example_config
             "get" "/components" JNull JNull no_kwargs)
  = Raise (Exception ("Unknown HTTP error response. Json expected. "
                      ++ "HTTP response code=420. "
                      ++ "HTTP response body=Enhance your calm")) /\
  outcome (request strict_DotMap (reply calm) example_config
             "get" "/components" JNull JNull no_kwargs)
  <> Raise RateLimitError.
Proof.
  split; [reflexivity|]. split; [vm_compute; reflexivity|].
  vm_compute. discriminate.
Qed.

Lemma request_unknown_error_witness :
  (received (reply internal_error)
     (request strict_DotMap (reply internal_error) example_config
        "get" "/components" JNull JNull no_kwargs)
   = [Response internal_error] /\
   ~ (200 <= status_code internal_error < 300) /\
   resp_json internal_error = None /\
   outcome (request strict_DotMap (reply internal_error) example_config
              "get" "/components" JNull JNull no_kwargs)
   = Raise (Exception ("Unknown HTTP error response. Json expected. "
                       ++ "HTTP response code=500. "
                       ++ "HTTP response body=Internal Error")))
  /\ outcome (request strict_DotMap (reply multiple_choices) example_config
                "get" "/components" JNull JNull no_kwargs)
     = Raise (Exception "Unknown HTTP error response").
Proof.
  split.
  - split; [vm_compute; reflexivity|]. split; [simpl; lia|]. split; [reflexivity|].
    refine (proj1 (request_unknown_error strict_DotMap (reply internal_error)
                     example_config "get" "/components" JNull JNull no_kwargs
                     internal_error _ _) _);
      solve [reflexivity | vm_compute; reflexivity | simpl; lia].
  - refine (proj2 (request_unknown_error strict_DotMap (reply multiple_choices)
                     example_config "get" "/components" JNull JNull no_kwargs
                     multiple_choices _ _)
              (JObj [("message", JStr "Multiple Choices")]) _ _);
      solve [reflexivity | vm_compute; reflexivity | simpl; lia].
Defined.

(** C3 as stated fails on a JSON body with a status outside
    [400, 600): status 300 with a JSON body ends in the generic
    exception with the fixed message, in which neither the status code
    nor the response text occurs. *)
Lemma unknown_status_counterexample :
  ~ (200 <= status_code multiple_choices < 300) /\
  ~ (400 <= status_code multiple_choices < 600) /\
  outcome (request strict_DotMap (reply multiple_choices) example_config
             "get" "/components" JNull JNull no_kwargs)
  = Raise (Exception "Unknown HTTP error response") /\
  str_contains (pretty (status_code multiple_choices)) "Unknown HTTP error response"
  = false /\
  str_contains (resp_text multiple_choices) "Unknown HTTP error response" = false.
Proof.
  split; [simpl; lia|]. split; [simpl; lia|].
  split; [vm_compute; reflexivity|]. split; vm_compute; reflexivity.
Qed.


(** * Further properties of the client *)

Section Further.

Variable DotMap_other : json -> option pyval.
Variable transport : wire_request -> transport_result.

Abbreviation request := (request DotMap_other transport).
Abbreviation received := (received transport).
Abbreviation after_response := (after_response DotMap_other).
Abbreviation unwrap_envelope := (unwrap_envelope DotMap_other).
Abbreviation DotMap := (DotMap DotMap_other).

(** The run of [request] in one piece: the pre-flight failures, then
    the single call and what becomes of its answer. *)
Lemma request_run_sent (config : Configuration) (method url : string)
    (params body : json) (kw : kwargs) :
  run (request config method url params body kw) =
  match api_key config with
  | None => ([], Raise TypeError)
  | Some key =>
      if encodable body kw then
        ([sent_request config key method url params body kw],
         match transport (sent_request config key method url params body kw) with
         | Response resp => after_response (raw_of kw) resp
         | Failure what => Raise (RequestException what)
         end)
      else ([], Raise (KeyError "container"))
  end.
Proof.
  rewrite request_run. unfold encodable, sent_request, sent_data, sent_headers.
  destruct (api_key config) as [key|]; [|reflexivity].
  destruct body; simpl; try reflexivity;
    destruct (raw_of kw); simpl; try reflexivity;
    destruct (kw_container kw); reflexivity.
Qed.

(** X1.  The transport is called at most once, and not at all when the
    API key is missing or when the body needs a container that is not
    given; there is never a second call. *)
Theorem request_calls_at_most_once (config : Configuration) (method url : string)
    (params body : json) (kw : kwargs) :
  (length (calls (request config method url params body kw))
   <= (if configured config && encodable body kw then 1 else 0))%nat.
Proof.
  unfold calls, configured. rewrite request_run_sent.
  destruct (api_key config) as [key|].
  - rewrite bool_decide_eq_true_2 by eauto.
    destruct (encodable body kw); simpl; lia.
  - rewrite bool_decide_eq_false_2 by (intros [? ?]; discriminate). simpl; lia.
Qed.

(** X2.  Every call carries the caller's method and query parameters
    and the configuration's TLS flag unchanged. *)
Theorem request_passes_through (config : Configuration) (method url : string)
    (params body : json) (kw : kwargs) :
  Forall (fun w => rq_method w = method /\ rq_params w = params /\
                   rq_verify w = verify_ssl config)
    (calls (request config method url params body kw)).
Proof.
  unfold calls. rewrite request_run_sent.
  destruct (api_key config) as [key|]; [|constructor].
  destruct (encodable body kw); simpl; repeat constructor.
Qed.

(** X3.  An exception of the transport is the outcome of the request,
    as it is. *)
Theorem request_transport_failure (config : Configuration) (method url : string)
    (params body : json) (kw : kwargs) (what : string) :
  received (request config method url params body kw) = [Failure what] ->
  outcome (request config method url params body kw)
  = Raise (RequestException what).
Proof.
  unfold received, calls, outcome. rewrite request_run_sent.
  destruct (api_key config) as [key|]; [|discriminate].
  destruct (encodable body kw); [|discriminate].
  simpl. intros [= ->]. reflexivity.
Qed.

(** X4.  A response in 2xx whose content type does not say JSON comes
    back as its status, its headers and its content, untouched, whether
    [raw] is set or not and whatever [json()] would give. *)
Theorem request_content (config : Configuration) (method url : string)
    (params body : json) (kw : kwargs) (resp : response) :
  received (request config method url params body kw) = [Response resp] ->
  200 <= status_code resp < 300 ->
  is_json_response resp = false ->
  outcome (request config method url params body kw)
  = Ok (status_code resp, resp_headers resp, Content (resp_content resp)).
Proof.
  intros Hrecv Hstatus Hjson.
  rewrite (request_outcome _ _ _ _ _ _ _ _ _ Hrecv). unfold after_response.
  replace ((200 <=? status_code resp) && (status_code resp <? 300)) with true
    by (symmetry; apply andb_true_iff; split; [apply Z.leb_le|apply Z.ltb_lt]; lia).
  simpl. rewrite Hjson. reflexivity.
Qed.

(** X5.  A response in 2xx whose content type says JSON but whose body
    does not decode makes the request fail with the decoder's error,
    not with one of the client's own. *)
Theorem request_undecodable (config : Configuration) (method url : string)
    (params body : json) (kw : kwargs) (resp : response) :
  received (request config method url params body kw) = [Response resp] ->
  200 <= status_code resp < 300 ->
  is_json_response resp = true ->
  resp_json resp = None ->
  outcome (request config method url params body kw) = Raise JSONDecodeError.
Proof.
  intros Hrecv Hstatus Hjson Hdecoded.
  rewrite (request_outcome _ _ _ _ _ _ _ _ _ Hrecv). unfold after_response.
  replace ((200 <=? status_code resp) && (status_code resp <? 300)) with true
    by (symmetry; apply andb_true_iff; split; [apply Z.leb_le|apply Z.ltb_lt]; lia).
  simpl. rewrite Hjson, Hdecoded. reflexivity.
Qed.

Lemma DotMap_raises (j : json) (e : exn) :
  DotMap j = Raise e -> e = DotMapError.
Proof.
  unfold DotMap. destruct j; try discriminate;
    destruct (DotMap_other _); intros [= <-]; reflexivity.
Qed.

Lemma sequence_DotMap_raises (l : list json) (e : exn) :
  sequence (map DotMap l) = Raise e -> e = DotMapError.
Proof.
  induction l as [|j tl IH]; simpl; [discriminate|].
  destruct (DotMap j) as [v|e'] eqn:Ej; simpl.
  - destruct (sequence (map DotMap tl)) as [vs|e'']; simpl; [discriminate|].
    intros [= <-]. now apply IH.
  - intros [= <-]. now apply DotMap_raises in Ej.
Qed.

Lemma py_iter_raises (v : json) (e : exn) : py_iter v = Raise e -> e = TypeError.
Proof. destruct v; simpl; intros [= <-]; reflexivity. Qed.

Lemma unwrap_envelope_raises (body : json) (e : exn) :
  unwrap_envelope body = Raise e -> e = TypeError \/ e = DotMapError.
Proof.
  unfold unwrap_envelope.
  destruct body as [| | | s | l | kvs]; simpl; try (intros [= <-]; now left).
  - destruct (str_contains "items" s); simpl.
    + intros [= <-]. now left.
    + intros H. right. exact (DotMap_raises (JStr s) e H).
  - destruct (existsb (json_eqb_str "items") l); simpl.
    + intros [= <-]. now left.
    + intros H. right. exact (DotMap_raises (JList l) e H).
  - destruct (dict_get kvs "items") as [items|] eqn:Eget.
    + rewrite bool_decide_eq_true_2 by eauto. simpl.
      destruct (py_iter items) as [l|e1] eqn:Eit; simpl.
      * destruct (sequence (map DotMap l)) as [vs|e2] eqn:Eseq; simpl; [discriminate|].
        intros [= <-]. right. now apply sequence_DotMap_raises in Eseq.
      * intros [= <-]. left. now apply py_iter_raises in Eit.
    + rewrite bool_decide_eq_false_2 by (intros [? ?]; discriminate). simpl.
      discriminate.
Qed.

(** X6.  [unwrap_envelope] never fails with [KeyError]: the [items]
    lookup is guarded by the membership test, and a failure is a
    [TypeError] of Python or an error of the [dotmap] constructor. *)
Theorem unwrap_envelope_no_key_error (body : json) :
  raises_key_error (unwrap_envelope body) = false
  /\ match unwrap_envelope body with
     | Raise e => e = TypeError \/ e = DotMapError
     | Ok _ => True
     end.
Proof.
  destruct (unwrap_envelope body) as [v|e] eqn:E; simpl; [split; trivial|].
  apply unwrap_envelope_raises in E. split; [|exact E].
  destruct E as [-> | ->]; reflexivity.
Qed.

(** X7.  A body that is null, a boolean or a number cannot be
    unwrapped, and neither can an object whose [items] value is one of
    these: [unwrap_envelope] raises [TypeError]. *)
Theorem unwrap_envelope_scalar (body : json) :
  (iterable body = false -> unwrap_envelope body = Raise TypeError)
  /\ (forall kvs v, body = JObj kvs -> dict_get kvs "items" = Some v ->
        iterable v = false -> unwrap_envelope body = Raise TypeError).
Proof.
  split.
  - destruct body; simpl; try discriminate; reflexivity.
  - intros kvs v -> Hget Hv. unfold unwrap_envelope.
    rewrite py_in_dict, Hget. simpl. rewrite Hget. simpl.
    destruct v; simpl in Hv; try discriminate; reflexivity.
Qed.

(** X8.  When the body has an [items] key, the result of
    [unwrap_envelope] is determined by the value of that key alone:
    every other key of the body is dropped. *)
Theorem unwrap_envelope_only_items (kvs : list (string * json)) (v : json) :
  dict_get kvs "items" = Some v ->
  unwrap_envelope (JObj kvs) = unwrap_envelope (JObj [("items", v)]).
Proof.
  intros Hget. unfold unwrap_envelope.
  rewrite !py_in_dict, Hget. simpl. rewrite Hget. reflexivity.
Qed.

(** X9.  An [items] value with nothing to iterate (an empty list, an
    empty object or an empty string) unwraps to the empty list. *)
Theorem unwrap_envelope_empty_items (kvs : list (string * json)) (v : json) :
  dict_get kvs "items" = Some v ->
  py_iter v = Ok [] ->
  unwrap_envelope (JObj kvs) = Ok (PList []).
Proof.
  intros Hget Hiter. unfold unwrap_envelope.
  rewrite py_in_dict, Hget. simpl. rewrite Hget. simpl. rewrite Hiter. reflexivity.
Qed.

(** X10.  Wrapping then unwrapping: under a container other than
    [items] the wrapped body unwraps to one mapping whose only key is
    the container and which equals the wrapped body as data; under the
    container [items] it is the body itself that is taken for the list
    of items. *)
Theorem unwrap_wrap_envelope (c : string) (body : json) :
  (c <> "items" ->
   unwrap_envelope (wrap_envelope c body) = Ok (dotmap_value (wrap_envelope c body))
   /\ mapping_keys (dotmap_value (wrap_envelope c body)) = [c]
   /\ to_json (dotmap_value (wrap_envelope c body)) = wrap_envelope c body)
  /\ unwrap_envelope (wrap_envelope "items" body)
     = (l ← py_iter body; vs ← sequence (map DotMap l); Ok (PList vs)).
Proof.
  split.
  - intros Hc. split; [|split].
    + unfold unwrap_envelope, wrap_envelope. rewrite py_in_dict. simpl.
      destruct (String.eqb c "items") eqn:E; [|reflexivity].
      apply String.eqb_eq in E. contradiction.
    + reflexivity.
    + apply to_json_dotmap_value.
  - reflexivity.
Qed.

Lemma status_2xx_test (status : Z) :
  (200 <=? status) && (status <? 300) = true <-> 200 <= status < 300.
Proof.
  rewrite andb_true_iff, Z.leb_le, Z.ltb_lt. reflexivity.
Qed.

Lemma received_inv (config : Configuration) (method url : string)
    (params body : json) (kw : kwargs) (r : result (Z * gmap string string * resp_body)) :
  outcome (request config method url params body kw) = r ->
  (calls (request config method url params body kw) = [] /\
   (r = Raise TypeError \/ r = Raise (KeyError "container")))
  \/ (exists what, received (request config method url params body kw) = [Failure what]
                   /\ r = Raise (RequestException what))
  \/ (exists resp, received (request config method url params body kw) = [Response resp]
                   /\ r = after_response (raw_of kw) resp).
Proof.
  unfold received, calls, outcome. rewrite request_run_sent.
  destruct (api_key config) as [key|]; [|simpl; intros <-; left; auto].
  destruct (encodable body kw); [|simpl; intros <-; left; auto].
  simpl. destruct (transport _) as [resp|what]; intros <-; right; eauto.
Qed.

(** X11.  What [request] returns, it returns for a response of the
    transport with a status in 2xx: the status and the headers are that
    response's, and the body is its content when the content type does
    not say JSON and a decoded value when it does. *)
Theorem request_returns_2xx (config : Configuration) (method url : string)
    (params body : json) (kw : kwargs)
    (status : Z) (headers : gmap string string) (b : resp_body) :
  outcome (request config method url params body kw) = Ok (status, headers, b) ->
  exists resp,
    received (request config method url params body kw) = [Response resp]
    /\ status = status_code resp /\ headers = resp_headers resp
    /\ 200 <= status < 300
    /\ (if is_json_response resp
        then exists j v, resp_json resp = Some j /\ b = Decoded v
        else b = Content (resp_content resp)).
Proof.
  intros Hout. apply received_inv in Hout as [(_ & [H|H]) | [(what & _ & H) | (resp & Hrecv & H)]];
    try discriminate.
  exists resp. split; [exact Hrecv|]. revert H. unfold after_response.
  destruct ((200 <=? status_code resp) && (status_code resp <? 300)) eqn:E;
    simpl; [|discriminate].
  apply status_2xx_test in E.
  destruct (is_json_response resp).
  - destruct (resp_json resp) as [j|]; [|discriminate].
    destruct (if raw_of kw then _ else _) as [v|e]; [|discriminate].
    intros [= -> -> ->]. eauto 10.
  - intros [= -> -> ->]. auto.
Qed.

Lemma BaseError_inv (cls : Z -> json -> exn) (http_status : Z) (payload : json) :
  (BaseError cls http_status payload = cls http_status payload /\ iterable payload = true)
  \/ (BaseError cls http_status payload = TypeError /\ iterable payload = false).
Proof. destruct payload; simpl; auto. Qed.

Lemma handle_error_response_sound (resp : response) (c : error_class) :
  class_of (handle_error_response resp) = Some c ->
  api_error_status (handle_error_response resp) = Some (status_code resp)
  /\ class_range c (status_code resp)
  /\ match api_error_payload (handle_error_response resp) with
     | Some p => resp_json resp = Some p /\ iterable p = true
     | None => is_Some (resp_json resp)
     end.
Proof.
  unfold handle_error_response.
  destruct (resp_json resp) as [errors|]; [|discriminate]. cbv zeta.
  destruct (status_code resp =? 422) eqn:E422.
  { apply Z.eqb_eq in E422.
    destruct (BaseError_inv ResourceError (status_code resp) errors) as [[-> Hi]|[-> _]];
      [|discriminate].
    intros [= <-]. simpl. auto. }
  apply Z.eqb_neq in E422.
  destruct (status_code resp =? 420) eqn:E420.
  { apply Z.eqb_eq in E420. intros [= <-]. simpl. rewrite E420. eauto. }
  apply Z.eqb_neq in E420.
  destruct ((400 <=? status_code resp) && (status_code resp <? 500)) eqn:E4.
  { apply andb_true_iff in E4 as [?%Z.leb_le ?%Z.ltb_lt].
    destruct (BaseError_inv RequestError (status_code resp) errors) as [[-> Hi]|[-> _]];
      [|discriminate].
    intros [= <-]. simpl. auto 10. }
  destruct ((500 <=? status_code resp) && (status_code resp <? 600)) eqn:E5.
  { apply andb_true_iff in E5 as [?%Z.leb_le ?%Z.ltb_lt].
    destruct (BaseError_inv ServerError (status_code resp) errors) as [[-> Hi]|[-> _]];
      [|discriminate].
    intros [= <-]. simpl. auto 10. }
  discriminate.
Qed.

(** X12.  The classified errors are raised for the statuses they stand
    for and for no other reason: when a request ends in
    [ResourceError], [RateLimitError], [RequestError] or [ServerError],
    the transport answered with a response whose status is 422, is 420,
    lies in [400, 500) apart from these two, or lies in [500, 600)
    respectively; the body of that response decoded as JSON; the status
    the error carries is the response's and its payload is the decoded
    body, which can be iterated. *)
Theorem request_api_error_sound (config : Configuration) (method url : string)
    (params body : json) (kw : kwargs) (e : exn) (c : error_class) :
  outcome (request config method url params body kw) = Raise e ->
  class_of e = Some c ->
  exists resp,
    received (request config method url params body kw) = [Response resp]
    /\ api_error_status e = Some (status_code resp)
    /\ class_range c (status_code resp)
    /\ match api_error_payload e with
       | Some p => resp_json resp = Some p /\ iterable p = true
       | None => is_Some (resp_json resp)
       end.
Proof.
  intros Hout Hc.
  apply received_inv in Hout as [(_ & [H|H]) | [(what & _ & H) | (resp & Hrecv & H)]].
  - injection H as ->. discriminate.
  - injection H as ->. discriminate.
  - injection H as ->. discriminate.
  - exists resp. split; [exact Hrecv|]. revert H. unfold after_response.
    destruct (negb _).
    + intros [= ->]. now apply handle_error_response_sound.
    + destruct (is_json_response resp); [|discriminate].
      destruct (resp_json resp) as [j|]; [|intros [= ->]; discriminate].
      destruct (raw_of kw).
      * destruct (DotMap j) as [v|e'] eqn:E; [discriminate|].
        intros [= ->]. apply DotMap_raises in E. subst. discriminate.
      * destruct (unwrap_envelope j) as [v|e'] eqn:E; [discriminate|].
        intros [= ->]. apply unwrap_envelope_raises in E as [-> | ->]; discriminate.
Qed.

(** X13.  On a response with a status in [400, 600) other than 420
    whose body decodes to null, a boolean or a number, the request
    fails with [TypeError]: the error object cannot be built from a
    payload that is not iterable. *)
Theorem request_error_scalar_payload (config : Configuration) (method url : string)
    (params body : json) (kw : kwargs) (resp : response) (errors : json) :
  received (request config method url params body kw) = [Response resp] ->
  resp_json resp = Some errors ->
  iterable errors = false ->
  400 <= status_code resp < 600 ->
  status_code resp <> 420 ->
  outcome (request config method url params body kw) = Raise TypeError.
Proof.
  intros Hrecv Hjson Hiter Hrange H420.
  rewrite (request_error _ _ _ _ _ _ _ _ _ Hrecv) by lia.
  unfold handle_error_response. rewrite Hjson. cbv zeta.
  destruct (status_code resp =? 422) eqn:E422;
    [now rewrite BaseError_scalar|].
  rewrite (proj2 (Z.eqb_neq _ _) H420).
  destruct ((400 <=? status_code resp) && (status_code resp <? 500)) eqn:E4;
    [now rewrite BaseError_scalar|].
  replace ((500 <=? status_code resp) && (status_code resp <? 600)) with true.
  - now rewrite BaseError_scalar.
  - symmetry. apply andb_true_iff. rewrite Z.leb_le, Z.ltb_lt.
    apply andb_false_iff in E4 as [E4|E4];
      [apply Z.leb_gt in E4|apply Z.ltb_ge in E4]; lia.
Qed.

(** X14.  Of the keyword arguments, [request] uses only the headers
    when they are a dict, the truth value of [raw], and the container
    when there is a body to wrap: two bags that agree on these give the
    same calls and the same outcome. *)
Theorem request_kwargs_relevant (config : Configuration) (method url : string)
    (params body : json) (kw1 kw2 : kwargs) :
  user_headers_of kw1 = user_headers_of kw2 ->
  raw_of kw1 = raw_of kw2 ->
  kw_container kw1 = kw_container kw2 \/ has_body body = false \/ raw_of kw1 = true ->
  run (request config method url params body kw1)
  = run (request config method url params body kw2).
Proof.
  intros Hh Hr Hc. rewrite !request_run, <- Hh, <- Hr.
  destruct (api_key config) as [key|]; [|reflexivity].
  destruct Hc as [Hc | [Hc | Hc]].
  - rewrite Hc. reflexivity.
  - destruct body; try discriminate. reflexivity.
  - rewrite Hc. destruct body; reflexivity.
Qed.

Lemma handle_error_response_no_key_error (resp : response) (k : string) :
  handle_error_response resp <> KeyError k.
Proof.
  unfold handle_error_response.
  destruct (resp_json resp) as [errors|]; [|discriminate]. cbv zeta.
  repeat match goal with
    | |- context [if ?b then _ else _] => destruct b
    end;
    try discriminate;
    match goal with
    | |- BaseError ?cls ?st ?p <> _ =>
        destruct (BaseError_inv cls st p) as [[-> _]|[-> _]]; discriminate
    end.
Qed.

Lemma after_response_no_key_error (raw : bool) (resp : response) :
  raises_key_error (after_response raw resp) = false.
Proof.
  unfold after_response.
  destruct (negb _); simpl.
  - pose proof (handle_error_response_no_key_error resp) as H.
    destruct (handle_error_response resp); try reflexivity.
    exfalso. now apply (H key).
  - destruct (is_json_response resp); [|reflexivity].
    destruct (resp_json resp) as [j|]; [|reflexivity].
    destruct raw.
    + destruct (DotMap j) as [v|e] eqn:E; [reflexivity|].
      apply DotMap_raises in E. subst. reflexivity.
    + destruct (unwrap_envelope j) as [v|e] eqn:E; [reflexivity|].
      apply unwrap_envelope_raises in E as [-> | ->]; reflexivity.
Qed.

(** X15.  [get] and [delete] called without a [body] keyword send no
    body: every call they make has their own method name, the caller's
    query parameters, no data, and the [Content-Type] of the defaults
    unless the caller's headers set one; and they never fail with
    [KeyError], whether a container is given or not. *)
Theorem get_delete_send_no_body (config : Configuration) (url : string)
    (params : json) (kw : kwargs) :
  Forall (query_call "get" params kw)
    (calls (get DotMap_other transport config url params JNull kw))
  /\ Forall (query_call "delete" params kw)
       (calls (delete DotMap_other transport config url params JNull kw))
  /\ raises_key_error
       (outcome (get DotMap_other transport config url params JNull kw)) = false
  /\ raises_key_error
       (outcome (delete DotMap_other transport config url params JNull kw)) = false.
Proof.
  assert (Hct : forall key,
             sent_headers key JNull kw !! "Content-Type"
             = Some (default "application/x-www-form-urlencoded"
                       (user_headers_of kw !! "Content-Type"))).
  { intros key. rewrite sent_headers_lookup, default_headers_lookup. simpl.
    destruct (user_headers_of kw !! "Content-Type"); reflexivity. }
  unfold get, delete, calls, outcome. rewrite !request_run_sent.
  destruct (api_key config) as [key|]; simpl.
  - repeat split;
      try (constructor; [|constructor]; unfold query_call; simpl;
           repeat split; apply Hct);
      (destruct (transport _); [apply after_response_no_key_error|reflexivity]).
  - repeat split; constructor.
Qed.

(** X16.  [post], [put] and [patch] called without a [params] keyword
    send no query parameters: with [raw] false and a container, every
    call they make has their own method name and no parameters; given a
    body, the data is the JSON text of the wrapped body and the
    [Content-Type] is [application/json], whatever headers the caller
    gave; given none, there is no data. *)
Theorem post_put_patch_send_body (config : Configuration) (url c : string)
    (body : json) (kw : kwargs) :
  raw_of kw = false ->
  kw_container kw = Some c ->
  Forall (body_call "post" c body)
    (calls (post DotMap_other transport config url body JNull kw))
  /\ Forall (body_call "put" c body)
       (calls (put DotMap_other transport config url body JNull kw))
  /\ Forall (body_call "patch" c body)
       (calls (patch DotMap_other transport config url body JNull kw)).
Proof.
  intros Hraw Hc.
  assert (Hdata : forall key name,
             body_call name c body
               (sent_request config key name url JNull body kw)).
  { intros key name. unfold body_call, sent_request, sent_data. simpl.
    split; [reflexivity|]. split; [reflexivity|].
    rewrite sent_headers_lookup, Hraw, Hc.
    destruct body; simpl; auto. }
  unfold post, put, patch, calls. rewrite !request_run_sent.
  destruct (api_key config) as [key|]; [|repeat split; constructor].
  destruct (encodable body kw); simpl; repeat split; repeat constructor; apply Hdata.
Qed.

End Further.

Lemma request_transport_failure_witness :
  received timed_out
    (request strict_DotMap timed_out example_config
       "get" "/components" JNull JNull no_kwargs)
  = [Failure "timed out"] /\
  outcome (request strict_DotMap timed_out example_config
             "get" "/components" JNull JNull no_kwargs)
  = Raise (RequestException "timed out").
Proof.
  split; [vm_compute; reflexivity|].
  apply (request_transport_failure strict_DotMap timed_out example_config
           "get" "/components" JNull JNull no_kwargs "timed out").
  vm_compute; reflexivity.
Defined.

Lemma request_content_witness :
  received (reply html_response)
    (request strict_DotMap (reply html_response) example_config
       "get" "/components" JNull JNull raw_kwargs)
  = [Response html_response] /\
  200 <= status_code html_response < 300 /\
  is_json_response html_response = false /\
  outcome (request strict_DotMap (reply html_response) example_config
             "get" "/components" JNull JNull raw_kwargs)
  = Ok (200, resp_headers html_response, Content "<html></html>").
Proof.
  split; [vm_compute; reflexivity|]. split; [simpl; lia|].
  split; [vm_compute; reflexivity|].
  apply (request_content strict_DotMap (reply html_response) example_config
           "get" "/components" JNull JNull raw_kwargs html_response).
  - vm_compute; reflexivity.
  - simpl; lia.
  - vm_compute; reflexivity.
Defined.

Lemma request_undecodable_witness :
  received (reply broken_json_response)
    (request strict_DotMap (reply broken_json_response) example_config
       "get" "/components" JNull JNull no_kwargs)
  = [Response broken_json_response] /\
  200 <= status_code broken_json_response < 300 /\
  is_json_response broken_json_response = true /\
  resp_json broken_json_response = None /\
  outcome (request strict_DotMap (reply broken_json_response) example_config
             "get" "/components" JNull JNull no_kwargs)
  = Raise JSONDecodeError.
Proof.
  split; [vm_compute; reflexivity|]. split; [simpl; lia|].
  split; [vm_compute; reflexivity|]. split; [reflexivity|].
  apply (request_undecodable strict_DotMap (reply broken_json_response) example_config
           "get" "/components" JNull JNull no_kwargs broken_json_response).
  - vm_compute; reflexivity.
  - simpl; lia.
  - vm_compute; reflexivity.
  - reflexivity.
Defined.

Lemma unwrap_envelope_scalar_witness :
  (iterable (JInt 7) = false /\
   unwrap_envelope strict_DotMap (JInt 7) = Raise TypeError)
  /\ (dict_get [("items", JNull)] "items" = Some JNull /\
      iterable JNull = false /\
      unwrap_envelope strict_DotMap (JObj [("items", JNull)]) = Raise TypeError).
Proof.
  split.
  - split; [reflexivity|].
    apply (proj1 (unwrap_envelope_scalar strict_DotMap (JInt 7))). reflexivity.
  - split; [reflexivity|]. split; [reflexivity|].
    apply (proj2 (unwrap_envelope_scalar strict_DotMap (JObj [("items", JNull)]))
             [("items", JNull)] JNull); reflexivity.
Defined.

Lemma unwrap_envelope_only_items_witness :
  dict_get paged_body "items" = Some (JList two_items) /\
  unwrap_envelope strict_DotMap (JObj paged_body)
  = unwrap_envelope strict_DotMap (JObj [("items", JList two_items)]).
Proof.
  split; [reflexivity|].
  apply (unwrap_envelope_only_items strict_DotMap paged_body (JList two_items)).
  reflexivity.
Defined.

Lemma unwrap_envelope_empty_items_witness :
  dict_get [("items", JObj [])] "items" = Some (JObj []) /\
  py_iter (JObj []) = Ok [] /\
  unwrap_envelope strict_DotMap (JObj [("items", JObj [])]) = Ok (PList []).
Proof.
  split; [reflexivity|]. split; [reflexivity|].
  apply (unwrap_envelope_empty_items strict_DotMap [("items", JObj [])] (JObj []));
    reflexivity.
Defined.

Lemma unwrap_wrap_envelope_witness :
  "component" <> "items" /\
  unwrap_envelope strict_DotMap (wrap_envelope "component" name_x)
  = Ok (PDotMap [("component", PDotMap [("name", PStr "x")])]).
Proof.
  assert (H : "component" <> "items") by discriminate.
  split; [exact H|].
  exact (proj1 (proj1 (unwrap_wrap_envelope strict_DotMap "component" name_x) H)).
Defined.

Lemma request_returns_2xx_witness :
  outcome (request strict_DotMap (reply html_response) example_config
             "get" "/components" JNull JNull no_kwargs)
  = Ok (200, resp_headers html_response, Content "<html></html>") /\
  exists resp,
    received (reply html_response)
      (request strict_DotMap (reply html_response) example_config
         "get" "/components" JNull JNull no_kwargs)
    = [Response resp]
    /\ 200 = status_code resp /\ resp_headers html_response = resp_headers resp
    /\ 200 <= 200 < 300
    /\ (if is_json_response resp
        then exists j v, resp_json resp = Some j /\ Content "<html></html>" = Decoded v
        else Content "<html></html>" = Content (resp_content resp)).
Proof.
  split; [vm_compute; reflexivity|].
  apply (request_returns_2xx strict_DotMap (reply html_response) example_config
           "get" "/components" JNull JNull no_kwargs).
  vm_compute; reflexivity.
Defined.

Lemma request_api_error_sound_witness :
  outcome (request strict_DotMap (reply (json_response 422 invalid_name)) example_config
             "post" "/components" JNull name_x component_kwargs)
  = Raise (ResourceError 422 invalid_name) /\
  class_of (ResourceError 422 invalid_name) = Some ClsResource /\
  exists resp,
    received (reply (json_response 422 invalid_name))
      (request strict_DotMap (reply (json_response 422 invalid_name)) example_config
         "post" "/components" JNull name_x component_kwargs)
    = [Response resp]
    /\ Some 422 = Some (status_code resp)
    /\ status_code resp = 422
    /\ resp_json resp = Some invalid_name /\ iterable invalid_name = true.
Proof.
  split; [vm_compute; reflexivity|]. split; [reflexivity|].
  apply (request_api_error_sound strict_DotMap (reply (json_response 422 invalid_name))
           example_config "post" "/components" JNull name_x component_kwargs
           (ResourceError 422 invalid_name) ClsResource).
  - vm_compute; reflexivity.
  - reflexivity.
Defined.

Lemma request_error_scalar_payload_witness :
  received (reply (json_response 503 (JInt 0)))
    (request strict_DotMap (reply (json_response 503 (JInt 0))) example_config
       "get" "/components" JNull JNull no_kwargs)
  = [Response (json_response 503 (JInt 0))] /\
  resp_json (json_response 503 (JInt 0)) = Some (JInt 0) /\
  iterable (JInt 0) = false /\
  400 <= status_code (json_response 503 (JInt 0)) < 600 /\
  status_code (json_response 503 (JInt 0)) <> 420 /\
  outcome (request strict_DotMap (reply (json_response 503 (JInt 0))) example_config
             "get" "/components" JNull JNull no_kwargs)
  = Raise TypeError.
Proof.
  split; [vm_compute; reflexivity|]. do 2 (split; [reflexivity|]).
  split; [simpl; lia|]. split; [simpl; lia|].
  apply (request_error_scalar_payload strict_DotMap (reply (json_response 503 (JInt 0)))
           example_config "get" "/components" JNull JNull no_kwargs
           (json_response 503 (JInt 0)) (JInt 0)).
  - vm_compute; reflexivity.
  - reflexivity.
  - reflexivity.
  - simpl; lia.
  - simpl; lia.
Defined.

Lemma request_kwargs_relevant_witness :
  user_headers_of odd_kwargs = user_headers_of component_kwargs /\
  raw_of odd_kwargs = raw_of component_kwargs /\
  (kw_container odd_kwargs = kw_container component_kwargs \/
   has_body name_x = false \/ raw_of odd_kwargs = true) /\
  run (request strict_DotMap (reply (json_response 201 name_x)) example_config
         "post" "/components" JNull name_x odd_kwargs)
  = run (request strict_DotMap (reply (json_response 201 name_x)) example_config
           "post" "/components" JNull name_x component_kwargs).
Proof.
  do 2 (split; [reflexivity|]). split; [left; reflexivity|].
  apply (request_kwargs_relevant strict_DotMap (reply (json_response 201 name_x))
           example_config "post" "/components" JNull name_x odd_kwargs component_kwargs).
  - reflexivity.
  - reflexivity.
  - left; reflexivity.
Defined.

Lemma post_put_patch_send_body_witness :
  raw_of component_kwargs = false /\
  kw_container component_kwargs = Some "component" /\
  calls (post strict_DotMap timed_out example_config "/components" name_x JNull
           component_kwargs)
  <> [] /\
  Forall (body_call "post" "component" name_x)
    (calls (post strict_DotMap timed_out example_config "/components" name_x JNull
              component_kwargs)).
Proof.
  do 2 (split; [reflexivity|]). split; [vm_compute; discriminate|].
  apply (proj1 (post_put_patch_send_body strict_DotMap timed_out example_config
                  "/components" "component" name_x component_kwargs
                  eq_refl eq_refl)).
Defined.
